(** * Annotation interaction engine of the video annotation tool

    A shallow embedding of [src/pages/VideoAnnotationPage.tsx] (the page
    component that owns the annotation state and interprets pointer gestures)
    and of [src/services/annotationService.ts] (the thin persistence
    wrapper), followed by the properties of the specification that talk
    about them.

    Conventions of the embedding.
    - Pixel coordinates and frame numbers are JavaScript numbers that hold
      integers in this program; they are modelled as [Z].  Numbers that
      come from outside (the times in seconds of a fetched record, the
      numerals of a duration) are IEEE doubles and are modelled by Rocq's
      primitive [float], which is that type; [Js.ofZ] is the double of an
      integer and [Js.floor] is [Math.floor].  The record built for a save
      keeps its times as the quotients [n / 30] they are computed from.
    - A value of type [number | null] is an [option]; JavaScript truthiness
      ([x ? a : b], [!x], [x || d]) is written out by the [truthy] functions.
    - The React component state is the record [State].  An event handler is a
      function of the state of the render whose closure it is; it returns
      the next state together with the requests it issued to the persistence
      collaborator.  Where the source reads a state variable after calling
      its setter it still sees the value of the closure, and the embedding
      reads the old state there as well.
    - An asynchronous function is split at its [await]: the part before is
      the handler, the part after is a [_settled] transition that takes the
      outcome of the call. *)

From Stdlib Require Import ZArith QArith List String Ascii Bool Lia Floats.
From Stdlib Require Uint63.
Import ListNotations.
Open Scope Z_scope.

(** ** JavaScript values *)

Module Js.

(** Truthiness of a [number | null]: [null] and [0] are falsy. *)
Definition truthyNum (v : option Z) : bool :=
  match v with
  | None => false
  | Some n => negb (n =? 0)
  end.

(** The double of an integer: the nearest one, ties to even; an integer
    beyond the range of doubles gives an infinity. *)
Definition ofZ (z : Z) : float :=
  SF2Prim (binary_normalize prec emax z 0 false).

(** The double written for a quotient of integers, [n / d]. *)
Definition ofQ (q : Q) : float :=
  PrimFloat.div (ofZ (Qnum q)) (ofZ (Zpos (Qden q))).

(** The exact value of a finite double. *)
Definition exact (f : float) : option Q :=
  match Prim2SF f with
  | S754_zero _ => Some 0%Q
  | S754_finite sign m e =>
      let v := if sign then Zneg m else Zpos m in
      Some (if 0 <=? e then inject_Z (v * 2 ^ e)
            else Qmake v (Z.to_pos (2 ^ (- e))))
  | _ => None
  end.

(** [Math.floor].  The result of the source is an integer-valued double, an
    infinity or [NaN]; an infinity is given as the integer [2 ^ 1024] with
    its sign, whose double is that infinity again, and [NaN] as 0. *)
Definition floor (f : float) : Z :=
  match Prim2SF f with
  | S754_zero _ => 0
  | S754_finite sign m e =>
      let v := if sign then Zneg m else Zpos m in
      if 0 <=? e then v * 2 ^ e else v / 2 ^ (- e)
  | S754_infinity sign => if sign then - 2 ^ 1024 else 2 ^ 1024
  | S754_nan => 0
  end.

(** [f] holds of every integer from 0 to [n - 1]; used to check a
    statement about doubles on each integer of a range. *)
Fixpoint below (n : nat) (f : Z -> bool) : bool :=
  match n with
  | O => true
  | S k => f (Z.of_nat k) && below k f
  end.

(** Truthiness of a double or [null]: [null], the zeros and [NaN] are
    falsy. *)
Definition truthyFloat (v : option float) : bool :=
  match v with
  | None => false
  | Some f => negb (PrimFloat.is_nan f || PrimFloat.is_zero f)
  end.

(** Truthiness of a [string | null | undefined]: the empty string is falsy. *)
Definition truthyStr (v : option string) : bool :=
  match v with
  | None => false
  | Some s => negb (String.eqb s EmptyString)
  end.

(** [v || d] on strings. *)
Definition orText (v : option string) (d : string) : string :=
  match v with
  | Some s => if String.eqb s EmptyString then d else s
  | None => d
  end.

(** A value found in a response body, of any JSON kind: a string, or
    another value (null, a boolean, a number, a list, an object) given by
    what the code observes of it, its truthiness under [||] and its
    conversion to a string by [new Error(...)].  A list of objects is
    [Other true "[object Object]"], an empty list [Other true ""] and
    [null] is [Other false "null"]. *)
Inductive Value : Type :=
| Text (s : string)
| Other (truthy : bool) (text : string).

(** The message of [new Error(v || d)]; [None] is [undefined]. *)
Definition orStr (v : option Value) (d : string) : string :=
  match v with
  | Some (Text s) => if String.eqb s EmptyString then d else s
  | Some (Other true text) => text
  | Some (Other false _) => d
  | None => d
  end.

(** Outcome of an awaited promise: resolved with a value or rejected with
    an [Error] whose [message] is carried. *)
Inductive Settled (A : Type) : Type :=
| Resolved (a : A)
| Rejected (message : string).
Arguments Resolved {A} a.
Arguments Rejected {A} message.

End Js.

(** ** The persistence wrapper, [annotationService.ts] *)

Module Service.

(** [AnnotationBase], the wire shape of a create-or-update call. *)
Record AnnotationBase : Type := mkAnnotationBase {
  video_id : Z;
  frame_id : Z;
  polyp_id : Z;
  label : string;
  x1 : Z;
  y1 : Z;
  x2 : Z;
  y2 : Z;
  width : Z;
  height : Z;
  start_time : Q;
  end_time : option Q;
  content : string
}.

(** What [axios] reports for one call: the response data, or a failure
    with [error.response?.data?.detail] when the server supplied one. *)
Inductive AxiosOutcome (A : Type) : Type :=
| AxiosOk (data : A)
| AxiosError (detail : option Js.Value).
Arguments AxiosOk {A} data.
Arguments AxiosError {A} detail.

Definition wrap {A : Type} (fallback : string) (o : AxiosOutcome A)
  : Js.Settled A :=
  match o with
  | AxiosOk d => Js.Resolved d
  | AxiosError detail => Js.Rejected (Js.orStr detail fallback)
  end.

Definition createOrUpdateAnnotation {A : Type} (o : AxiosOutcome A)
  : Js.Settled A :=
  wrap "Failed to save annotation." o.

Definition fetchAnnotationsForFrame {A : Type} (o : AxiosOutcome A)
  : Js.Settled A :=
  wrap "Failed to fetch annotations." o.

Definition deleteAnnotation {A : Type} (o : AxiosOutcome A)
  : Js.Settled A :=
  wrap "Failed to delete annotation." o.

End Service.

(** ** The page component, [VideoAnnotationPage.tsx] *)

Module Page.

Import Js.

Record Point : Type := mkPoint { x : Z; y : Z }.
Record Size : Type := mkSize { width : Z; height : Z }.

(** The rectangle being drawn, [currentDrawing]. *)
Record Rect : Type := mkRect { rx : Z; ry : Z; rwidth : Z; rheight : Z }.

(** The result of [getBoundingClientRect()] on the frame container. *)
Record DOMRect : Type := mkDOMRect {
  left : Z; top : Z; cwidth : Z; cheight : Z
}.

(** The part of a mouse event the handlers read. *)
Record MouseEvent : Type := mkMouseEvent { clientX : Z; clientY : Z }.

Record Polyp : Type := mkPolyp {
  id : Z;
  frame : Z;
  notes : string;
  startFrame : Z;
  endFrame : option Z;
  position : Point;
  size : Size
}.

Record FrameInfo : Type := mkFrameInfo { fid : Z; path : string }.

(** A record returned by the backend for a frame. *)
Record FetchedAnnotation : Type := mkFetched {
  f_polyp_id : Z;
  f_x1 : Z;
  f_y1 : Z;
  f_width : Z;
  f_height : Z;
  f_start_time : float;
  f_end_time : option float;
  f_content : option string
}.

(** The [useState] cells of the component that the engine reads or
    writes. *)
Record State : Type := mkState {
  frames : list FrameInfo;
  polyps : list Polyp;
  selectedPolyp : option Z;
  isResizing : bool;
  isDragging : bool;
  dragStart : Point;
  isDrawing : bool;
  drawingStart : Point;
  currentDrawing : option Rect;
  error : string;
  isFrameAnnotationMode : bool;
  currentFrameIndex : Z;
  saving : bool
}.

(** What reaches the component from outside its state: the credential of
    [AuthContext] and [Number(id)] of the route. *)
Record Ctx : Type := mkCtx { authToken : option string; videoId : Z }.

(** Requests issued to the collaborators. *)
Inductive Request : Type :=
| CreateOrUpdate (a : Service.AnnotationBase)
| Delete (frame_id polyp_id : Z)
| FetchAnnotations (frame_id : Z)
| GetFramesPath (rate : Z).

(** *** Setters *)

Definition setFrames v (s : State) : State :=
  mkState v (polyps s) (selectedPolyp s) (isResizing s) (isDragging s)
    (dragStart s) (isDrawing s) (drawingStart s) (currentDrawing s)
    (error s) (isFrameAnnotationMode s) (currentFrameIndex s) (saving s).
Definition setPolyps v (s : State) : State :=
  mkState (frames s) v (selectedPolyp s) (isResizing s) (isDragging s)
    (dragStart s) (isDrawing s) (drawingStart s) (currentDrawing s)
    (error s) (isFrameAnnotationMode s) (currentFrameIndex s) (saving s).
Definition setSelectedPolyp v (s : State) : State :=
  mkState (frames s) (polyps s) v (isResizing s) (isDragging s)
    (dragStart s) (isDrawing s) (drawingStart s) (currentDrawing s)
    (error s) (isFrameAnnotationMode s) (currentFrameIndex s) (saving s).
Definition setIsResizing v (s : State) : State :=
  mkState (frames s) (polyps s) (selectedPolyp s) v (isDragging s)
    (dragStart s) (isDrawing s) (drawingStart s) (currentDrawing s)
    (error s) (isFrameAnnotationMode s) (currentFrameIndex s) (saving s).
Definition setIsDragging v (s : State) : State :=
  mkState (frames s) (polyps s) (selectedPolyp s) (isResizing s) v
    (dragStart s) (isDrawing s) (drawingStart s) (currentDrawing s)
    (error s) (isFrameAnnotationMode s) (currentFrameIndex s) (saving s).
Definition setDragStart v (s : State) : State :=
  mkState (frames s) (polyps s) (selectedPolyp s) (isResizing s)
    (isDragging s) v (isDrawing s) (drawingStart s) (currentDrawing s)
    (error s) (isFrameAnnotationMode s) (currentFrameIndex s) (saving s).
Definition setIsDrawing v (s : State) : State :=
  mkState (frames s) (polyps s) (selectedPolyp s) (isResizing s)
    (isDragging s) (dragStart s) v (drawingStart s) (currentDrawing s)
    (error s) (isFrameAnnotationMode s) (currentFrameIndex s) (saving s).
Definition setDrawingStart v (s : State) : State :=
  mkState (frames s) (polyps s) (selectedPolyp s) (isResizing s)
    (isDragging s) (dragStart s) (isDrawing s) v (currentDrawing s)
    (error s) (isFrameAnnotationMode s) (currentFrameIndex s) (saving s).
Definition setCurrentDrawing v (s : State) : State :=
  mkState (frames s) (polyps s) (selectedPolyp s) (isResizing s)
    (isDragging s) (dragStart s) (isDrawing s) (drawingStart s) v
    (error s) (isFrameAnnotationMode s) (currentFrameIndex s) (saving s).
Definition setError v (s : State) : State :=
  mkState (frames s) (polyps s) (selectedPolyp s) (isResizing s)
    (isDragging s) (dragStart s) (isDrawing s) (drawingStart s)
    (currentDrawing s) v (isFrameAnnotationMode s) (currentFrameIndex s)
    (saving s).
Definition setIsFrameAnnotationMode v (s : State) : State :=
  mkState (frames s) (polyps s) (selectedPolyp s) (isResizing s)
    (isDragging s) (dragStart s) (isDrawing s) (drawingStart s)
    (currentDrawing s) (error s) v (currentFrameIndex s) (saving s).
Definition setCurrentFrameIndex v (s : State) : State :=
  mkState (frames s) (polyps s) (selectedPolyp s) (isResizing s)
    (isDragging s) (dragStart s) (isDrawing s) (drawingStart s)
    (currentDrawing s) (error s) (isFrameAnnotationMode s) v (saving s).
Definition setSaving v (s : State) : State :=
  mkState (frames s) (polyps s) (selectedPolyp s) (isResizing s)
    (isDragging s) (dragStart s) (isDrawing s) (drawingStart s)
    (currentDrawing s) (error s) (isFrameAnnotationMode s)
    (currentFrameIndex s) v.

(** *** Derived values of a render *)

(** [frames.length > 0 ? frames[currentFrameIndex].id : null].  With a
    non-empty [frames] and an index outside it the source raises a
    [TypeError] while rendering, so no handler of such a render exists;
    the embedding gives [None] there and the theorems below never rely on
    that case. *)
Definition currentFrameId (s : State) : option Z :=
  match frames s with
  | [] => None
  | _ =>
      if currentFrameIndex s <? 0 then None
      else option_map fid
             (nth_error (frames s) (Z.to_nat (currentFrameIndex s)))
  end.

(** [!authToken] is false. *)
Definition hasToken (c : Ctx) : bool := truthyStr (authToken c).

(** [polyps.find(p => p.id === polypId)]. *)
Definition findPolyp (polypId : Z) (ps : list Polyp) : option Polyp :=
  find (fun p => id p =? polypId) ps.

(** [selectedPolyp === polypId] and [polyp.id === selectedPolyp]. *)
Definition isSelected (sel : option Z) (polypId : Z) : bool :=
  match sel with
  | Some k => polypId =? k
  | None => false
  end.

(** *** [saveAnnotation] *)

(** The [annotationData] object literal. *)
Definition annotationData (c : Ctx) (polyp : Polyp) : Service.AnnotationBase :=
  Service.mkAnnotationBase
    (videoId c)
    (frame polyp)
    (id polyp)
    (if String.eqb (notes polyp) EmptyString then "No Label"%string
     else notes polyp)
    (x (position polyp))
    (y (position polyp))
    (x (position polyp) + width (size polyp))
    (y (position polyp) + height (size polyp))
    (width (size polyp))
    (height (size polyp))
    (inject_Z (startFrame polyp) / 30)%Q
    (if truthyNum (endFrame polyp)
     then option_map (fun e => (inject_Z e / 30)%Q) (endFrame polyp)
     else None)
    (notes polyp).

(** [saveAnnotation] up to its [await]. *)
Definition saveAnnotation (c : Ctx) (polyp : Polyp) (s : State)
  : State * list Request :=
  if negb (hasToken c)
  then (setError "Authentication required to save annotations." s, [])
  else (setSaving true s, [CreateOrUpdate (annotationData c polyp)]).

(** [saveAnnotation] after its [await]: the [catch] and [finally]
    blocks. *)
Definition saveAnnotation_settled {A : Type} (r : Settled A) (s : State)
  : State :=
  setSaving false
    match r with
    | Resolved _ => s
    | Rejected message =>
        setError ("Failed to save annotation: " ++ message) s
    end.

(** Several [saveAnnotation] calls in sequence. *)
Fixpoint saveEach (c : Ctx) (ps : list Polyp) (s : State)
  : State * list Request :=
  match ps with
  | [] => (s, [])
  | p :: rest =>
      let '(s1, r1) := saveAnnotation c p s in
      let '(s2, r2) := saveEach c rest s1 in
      (s2, r1 ++ r2)
  end.

(** *** Geometry written inline in the handlers *)

(** The object passed to [setCurrentDrawing] in [handleMouseMove]: the
    rectangle spanned by the press point and the pointer. *)
Definition drawingRect (start : Point) (currentX currentY : Z) : Rect :=
  let width := currentX - x start in
  let height := currentY - y start in
  mkRect (if width <? 0 then currentX else x start)
         (if height <? 0 then currentY else y start)
         (Z.abs width)
         (Z.abs height).

(** [updatedPolyp] of [onDrag]: the polyp moved so that the pointer keeps
    its offset [dragStart], kept inside the container. *)
Definition dragged (e : MouseEvent) (container : DOMRect) (ds : Point)
  (polyp : Polyp) : Polyp :=
  let newX := clientX e - left container - x ds in
  let newY := clientY e - top container - y ds in
  mkPolyp (id polyp) (frame polyp) (notes polyp) (startFrame polyp)
    (endFrame polyp)
    (mkPoint
       (Z.max 0 (Z.min newX (cwidth container - width (size polyp))))
       (Z.max 0 (Z.min newY (cheight container - height (size polyp)))))
    (size polyp).

(** The object returned for the selected polyp in [onResize]. *)
Definition resized (deltaX deltaY : Z) (container : DOMRect) (p : Polyp)
  : Polyp :=
  mkPolyp (id p) (frame p) (notes p) (startFrame p) (endFrame p)
    (position p)
    (mkSize
       (Z.max 30 (Z.min (width (size p) + deltaX)
                        (cwidth container - x (position p))))
       (Z.max 30 (Z.min (height (size p) + deltaY)
                        (cheight container - y (position p))))).

(** [{ ...polyp, endFrame: v }] and [{ ...polyp, notes: note }]. *)
Definition withEndFrame (v : option Z) (polyp : Polyp) : Polyp :=
  mkPolyp (id polyp) (frame polyp) (notes polyp) (startFrame polyp) v
    (position polyp) (size polyp).
Definition withNotes (note : string) (polyp : Polyp) : Polyp :=
  mkPolyp (id polyp) (frame polyp) note (startFrame polyp) (endFrame polyp)
    (position polyp) (size polyp).

(** [prev.map(polyp => polyp.id === k ? f(polyp) : polyp)]. *)
Definition mapWhere (k : Z) (f : Polyp -> Polyp) (ps : list Polyp)
  : list Polyp :=
  map (fun polyp => if id polyp =? k then f polyp else polyp) ps.

(** *** Loading the annotations of a frame *)

(** One element of [mappedPolyps]. *)
Definition mappedPolyp (currentFrameId : Z) (annotation : FetchedAnnotation)
  : Polyp :=
  mkPolyp (f_polyp_id annotation)
    currentFrameId
    (orText (f_content annotation) EmptyString)
    (floor (f_start_time annotation * 30))
    (if truthyFloat (f_end_time annotation)
     then option_map (fun t => floor (t * 30)) (f_end_time annotation)
     else None)
    (mkPoint (f_x1 annotation) (f_y1 annotation))
    (mkSize (f_width annotation) (f_height annotation)).

(** The effect [loadAnnotations] up to its [await]. *)
Definition loadAnnotations (c : Ctx) (s : State) : State * list Request :=
  match currentFrameId s with
  | None => (s, [])
  | Some fr =>
      if negb (isFrameAnnotationMode s) then (s, [])
      else if negb (hasToken c)
      then (setError "Authentication required to load annotations." s, [])
      else (s, [FetchAnnotations fr])
  end.

(** [loadAnnotations] after its [await]; [fr] is the [currentFrameId] of the
    render that started the effect. *)
Definition loadAnnotations_settled (fr : Z)
  (r : Settled (list FetchedAnnotation)) (s : State) : State :=
  match r with
  | Resolved annotations => setPolyps (map (mappedPolyp fr) annotations) s
  | Rejected message =>
      setError ("Failed to load annotations: " ++ message) s
  end.

(** *** Mode switches *)

(** [fetchFrames] up to its [await]. *)
Definition fetchFrames (s : State) : State * list Request :=
  (s, [GetFramesPath 30]).

(** [fetchFrames] after its [await]: [Some data] is a successful response,
    [None] a thrown error. *)
Definition fetchFrames_settled (r : option (list FrameInfo)) (s : State)
  : State :=
  match r with
  | Some data =>
      setIsFrameAnnotationMode true (setCurrentFrameIndex 0 (setFrames data s))
  | None => setError "Unable to load frames. Please try again later." s
  end.

(** [onExitFrameMode]. *)
Definition exitFrameMode (s : State) : State :=
  setIsFrameAnnotationMode false s.

(** Leaving frame annotation mode and entering it again.  [data] is the
    frame list the backend answers with and [loaded] the outcome of the
    annotation load that the effect starts once the mode, the frame index
    and the frames have been set. *)
Definition reenterFrameMode (c : Ctx) (data : list FrameInfo)
  (loaded : Settled (list FetchedAnnotation)) (s : State) : State :=
  let s1 := exitFrameMode s in
  let s2 := fetchFrames_settled (Some data) (fst (fetchFrames s1)) in
  match loadAnnotations c s2 with
  | (s3, [FetchAnnotations fr]) => loadAnnotations_settled fr loaded s3
  | (s3, _) => s3
  end.

(** *** What the overlays are given *)

(** [polyps.filter(polyp => !polyp.endFrame)], the overlay of the video
    player. *)
Definition continuousOverlay (s : State) : list Polyp :=
  filter (fun polyp => negb (truthyNum (endFrame polyp))) (polyps s).

(** [polyps.filter(polyp => polyp.frame === currentFrameId)], the overlay of
    the frame viewer. *)
Definition frameOverlay (s : State) : list Polyp :=
  filter (fun polyp =>
            match currentFrameId s with
            | Some fr => frame polyp =? fr
            | None => false
            end) (polyps s).

(** *** Sidebar actions *)

(** [handleDeletePolyp] up to its [await]. *)
Definition handleDeletePolyp (c : Ctx) (polypId : Z) (s : State)
  : State * list Request :=
  if negb (hasToken c)
  then (setError "Authentication required to delete annotations." s, [])
  else
    match currentFrameId s with
    | None =>
        (setError ("Failed to delete annotation: "
                   ++ "Current frame ID is not available.") s, [])
    | Some fr => (s, [Delete fr polypId])
    end.

(** [handleDeletePolyp] after its [await]; [sel] is the [selectedPolyp] of
    the render whose handler was called. *)
Definition handleDeletePolyp_settled {A : Type} (sel : option Z) (polypId : Z)
  (r : Settled A) (s : State) : State :=
  match r with
  | Resolved _ =>
      let s1 :=
        setPolyps (filter (fun polyp => negb (id polyp =? polypId)) (polyps s))
          s in
      if isSelected sel polypId then setSelectedPolyp None s1 else s1
  | Rejected message =>
      setError ("Failed to delete annotation: " ++ message) s
  end.

(** [handleAddNote]; [note] is what [prompt] returned. *)
Definition handleAddNote (c : Ctx) (note : option string) (polypId : Z)
  (s : State) : State * list Request :=
  match note with
  | None => (s, [])
  | Some n =>
      if String.eqb n EmptyString then (s, [])
      else
        let s1 := setPolyps (mapWhere polypId (withNotes n) (polyps s)) s in
        match findPolyp polypId (polyps s) with
        | Some updatedPolyp => saveAnnotation c updatedPolyp s1
        | None => (s1, [])
        end
  end.

(** [handleEndPolyp]. *)
Definition handleEndPolyp (c : Ctx) (polypId : Z) (s : State)
  : State * list Request :=
  match isFrameAnnotationMode s, currentFrameId s with
  | true, Some _ =>
      let s1 :=
        setPolyps
          (mapWhere polypId (withEndFrame (Some (currentFrameIndex s + 1)))
             (polyps s)) s in
      match findPolyp polypId (polyps s) with
      | Some updatedPolyp => saveAnnotation c updatedPolyp s1
      | None => (s1, [])
      end
  | _, _ => (s, [])
  end.

(** *** Pointer gestures *)

(** [startDrag]. *)
Definition startDrag (e : MouseEvent) (polypId : Z)
  (container : option DOMRect) (s : State) : State :=
  if negb (isFrameAnnotationMode s) then s
  else
    let s1 :=
      setSelectedPolyp (Some polypId)
        (setIsResizing false (setIsDragging true s)) in
    match container with
    | None => s1
    | Some ct =>
        match findPolyp polypId (polyps s) with
        | None => s1
        | Some polyp =>
            setDragStart
              (mkPoint (clientX e - left ct - x (position polyp))
                       (clientY e - top ct - y (position polyp))) s1
        end
    end.

(** [onDrag]. *)
Definition onDrag (c : Ctx) (e : MouseEvent) (container : option DOMRect)
  (s : State) : State * list Request :=
  match isDragging s, selectedPolyp s, container with
  | true, Some sel, Some ct =>
      let move := dragged e ct (dragStart s) in
      let '(s1, reqs) :=
        saveEach c
          (map move (filter (fun polyp => id polyp =? sel) (polyps s))) s in
      (setPolyps (mapWhere sel move (polyps s)) s1, reqs)
  | _, _, _ => (s, [])
  end.

(** [startResize]. *)
Definition startResize (e : MouseEvent) (polypId : Z) (s : State) : State :=
  if negb (isFrameAnnotationMode s) then s
  else
    setDragStart (mkPoint (clientX e) (clientY e))
      (setSelectedPolyp (Some polypId)
         (setIsDragging false (setIsResizing true s))).

(** [onResize]. *)
Definition onResize (e : MouseEvent) (container : option DOMRect) (s : State)
  : State :=
  match isResizing s, selectedPolyp s, container with
  | true, Some sel, Some ct =>
      match findPolyp sel (polyps s) with
      | None => s
      | Some _ =>
          let deltaX := clientX e - x (dragStart s) in
          let deltaY := clientY e - y (dragStart s) in
          setDragStart (mkPoint (clientX e) (clientY e))
            (setPolyps (mapWhere sel (resized deltaX deltaY ct) (polyps s)) s)
      end
  | _, _, _ => s
  end.

(** [endDragOrResize]. *)
Definition endDragOrResize (s : State) : State :=
  setIsResizing false (setIsDragging false s).

(** [handleMouseDown]; [onPolyp] is
    [e.target.dataset.type === 'polyp']. *)
Definition handleMouseDown (onPolyp : bool) (e : MouseEvent)
  (container : option DOMRect) (s : State) : State :=
  if negb (isFrameAnnotationMode s) then s
  else if onPolyp then s
  else
    match container with
    | None => s
    | Some ct =>
        let px := clientX e - left ct in
        let py := clientY e - top ct in
        setSelectedPolyp None
          (setCurrentDrawing (Some (mkRect px py 0 0))
             (setDrawingStart (mkPoint px py) (setIsDrawing true s)))
    end.

(** [handleMouseMove]. *)
Definition handleMouseMove (c : Ctx) (e : MouseEvent)
  (container : option DOMRect) (s : State) : State * list Request :=
  if negb (isFrameAnnotationMode s) then (s, [])
  else if isDrawing s then
    match container with
    | None => (s, [])
    | Some ct =>
        (setCurrentDrawing
           (Some (drawingRect (drawingStart s)
                    (clientX e - left ct) (clientY e - top ct))) s, [])
    end
  else if isResizing s then (onResize e container s, [])
  else if isDragging s then onDrag c e container s
  else (s, []).

(** The polyp built in [handleMouseUp]; [now] is [Date.now()]. *)
Definition newPolyp (now currentFrameId currentFrameIndex : Z) (d : Rect)
  : Polyp :=
  mkPolyp now currentFrameId EmptyString (currentFrameIndex + 1) None
    (mkPoint (rx d) (ry d)) (mkSize (rwidth d) (rheight d)).

(** [handleMouseUp] (also bound to [onMouseLeave]). *)
Definition handleMouseUp (c : Ctx) (now : Z) (s : State)
  : State * list Request :=
  match isDrawing s, currentDrawing s, currentFrameId s with
  | true, Some d, Some fr =>
      let p := newPolyp now fr (currentFrameIndex s) d in
      saveAnnotation c p
        (setCurrentDrawing None
           (setIsDrawing false (setPolyps (polyps s ++ [p]) s)))
  | _, _, _ => (endDragOrResize s, [])
  end.

(** A run of pointer moves, each handled by a fresh render. *)
Fixpoint moves (c : Ctx) (container : option DOMRect) (es : list MouseEvent)
  (s : State) : State * list Request :=
  match es with
  | [] => (s, [])
  | e :: rest =>
      let '(s1, r1) := handleMouseMove c e container s in
      let '(s2, r2) := moves c container rest s1 in
      (s2, r1 ++ r2)
  end.

(** A whole draw gesture: press off any polyp, moves, release. *)
Definition drawGesture (c : Ctx) (container : option DOMRect)
  (press : MouseEvent) (es : list MouseEvent) (now : Z) (s : State)
  : State * list Request :=
  let s0 := handleMouseDown false press container s in
  let '(s1, r1) := moves c container es s0 in
  let '(s2, r2) := handleMouseUp c now s1 in
  (s2, r1 ++ r2).

End Page.

(** ** [parseDuration] *)

Module Duration.

(** The argument of [parseDuration], by its [typeof].  A string is given
    by the bytes of its UTF-8 form; a number is a double. *)
Inductive Input : Type :=
| OfString (s : string)
| OfNumber (n : float)
| OfOther.

(** [n || 0]: [NaN] and the zeros are falsy. *)
Definition orZero (n : float) : float :=
  if PrimFloat.is_nan n || PrimFloat.is_zero n then 0%float else n.

(** White space of one byte skipped by [parseInt]: TAB, LF, VT, FF, CR and
    the space. *)
Definition isWhiteSpace (a : ascii) : bool :=
  let n := nat_of_ascii a in
  ((9 <=? n) && (n <=? 13) || (n =? 32))%nat.

(** White space of two bytes: U+00A0. *)
Definition isWhiteSpace2 (a b : ascii) : bool :=
  ((nat_of_ascii a =? 194) && (nat_of_ascii b =? 160))%nat.

(** White space of three bytes: U+1680, U+2000 to U+200A, U+2028, U+2029,
    U+202F, U+205F, U+3000 and U+FEFF. *)
Definition isWhiteSpace3 (a b c : ascii) : bool :=
  let x := nat_of_ascii a in
  let y := nat_of_ascii b in
  let z := nat_of_ascii c in
  ((x =? 225) && (y =? 154) && (z =? 128)
   || (x =? 226) && (y =? 128)
      && ((128 <=? z) && (z <=? 138) || (z =? 168) || (z =? 169)
          || (z =? 175))
   || (x =? 226) && (y =? 129) && (z =? 159)
   || (x =? 227) && (y =? 128) && (z =? 128)
   || (x =? 239) && (y =? 187) && (z =? 191))%nat.

Fixpoint trimStart (s : string) : string :=
  match s with
  | EmptyString => EmptyString
  | String a r1 =>
      if isWhiteSpace a then trimStart r1
      else
        match r1 with
        | EmptyString => s
        | String b r2 =>
            if isWhiteSpace2 a b then trimStart r2
            else
              match r2 with
              | EmptyString => s
              | String c r3 =>
                  if isWhiteSpace3 a b c then trimStart r3 else s
              end
        end
  end.

Definition digitOf (a : ascii) : option Z :=
  let n := Z.of_nat (nat_of_ascii a) in
  if (48 <=? n) && (n <=? 57) then Some (n - 48) else None.

(** The integer written by the longest prefix of decimal digits, [acc]
    being the integer read so far ([None] when no digit was read). *)
Fixpoint digits (acc : option Z) (s : string) : option Z :=
  match s with
  | String a rest =>
      match digitOf a with
      | Some d =>
          digits (Some (10 * match acc with Some v => v | None => 0 end + d))
            rest
      | None => acc
      end
  | EmptyString => acc
  end.

(** [parseInt(s, 10)]: the double of the integer the digits write, with
    its sign, and [NaN] without a digit. *)
Definition parseInt (s : string) : float :=
  match trimStart s with
  | String "-" rest =>
      match digits None rest with
      | Some v => PrimFloat.opp (Js.ofZ v)
      | None => nan
      end
  | String "+" rest =>
      match digits None rest with
      | Some v => Js.ofZ v
      | None => nan
      end
  | t =>
      match digits None t with
      | Some v => Js.ofZ v
      | None => nan
      end
  end.

(** [s.split(sep)] for a one-character separator. *)
Fixpoint split (sep : ascii) (s : string) : list string :=
  match s with
  | EmptyString => [EmptyString]
  | String a rest =>
      if Ascii.eqb a sep then EmptyString :: split sep rest
      else
        match split sep rest with
        | part :: parts => String a part :: parts
        | [] => [String a EmptyString]
        end
  end.

Definition parseDuration (duration : Input) : float :=
  match duration with
  | OfString str =>
      match map parseInt (split ":" str) with
      | [p0; p1; p2] => (p0 * 3600 + p1 * 60 + p2)%float
      | [p0; p1] => (p0 * 60 + p1)%float
      | _ => orZero (parseInt str)
      end
  | OfNumber n => n
  | OfOther => 0%float
  end.

(** Decimal numerals, to state what the parser reads: the string of a list
    of digits and its positional value. *)
Definition digitChar (d : Z) : ascii := ascii_of_nat (Z.to_nat (48 + d)).

Fixpoint numeral (ds : list Z) : string :=
  match ds with
  | [] => EmptyString
  | d :: rest => String (digitChar d) (numeral rest)
  end.

Fixpoint valueOf (ds : list Z) : Z :=
  match ds with
  | [] => 0
  | d :: rest => d * 10 ^ Z.of_nat (List.length rest) + valueOf rest
  end.

Definition isDigits (ds : list Z) : Prop :=
  ds <> [] /\ Forall (fun d => 0 <= d <= 9) ds.

(** A text that may follow the digits of a part: it has no colon and does
    not start with a digit. *)
Definition isTail (j : string) : Prop :=
  split ":" j = [j]
  /\ match j with
     | EmptyString => True
     | String a _ => digitOf a = None
     end.

End Duration.

(** ** Concrete sessions used to exercise the statements *)

Module Examples.

Import Page.

Definition surface : DOMRect := mkDOMRect 0 0 800 600.

Definition user : Ctx := mkCtx (Some "token"%string) 1.

Definition tenFrames : list FrameInfo :=
  map (fun k => mkFrameInfo (100 + k) "frame.jpg") [0; 1; 2; 3; 4; 5; 6; 7; 8; 9].

(** Frame annotation mode, nothing stored, viewing frame index [i]. *)
Definition viewing (i : Z) (ps : list Polyp) : State :=
  mkState tenFrames ps None false false (mkPoint 0 0) false (mkPoint 0 0)
    None EmptyString true i false.

(** The annotation of the specification's running example. *)
Definition drawn : Polyp :=
  mkPolyp 1700000000000 104 EmptyString 5 None (mkPoint 50 50)
    (mkSize 100 70).

(** An annotation of frame index 9 that was ended there. *)
Definition closed : Polyp :=
  mkPolyp 7 109 EmptyString 5 (Some 10) (mkPoint 50 50) (mkSize 100 70).



(** A record of the backend whose [end_time], 1/64 s, is less than half a
    frame. *)
Definition barelyEnded : FetchedAnnotation :=
  mkFetched 11 50 50 100 70 0.5%float (Some 0.015625%float) None.

(** No credential. *)
Definition anonymous : Ctx := mkCtx None 1.

(** Frame annotation mode after the backend answered with no frames. *)
Definition noFrames (ps : list Polyp) : State :=
  mkState [] ps None false false (mkPoint 0 0) false (mkPoint 0 0)
    None EmptyString true 0 false.

End Examples.

(** ** The rest of the page: navigation, keyboard, rendering, wiring *)

Module Session.

Import Js Page.

(** [seekFrame], the branch for frame annotation mode.  In continuous mode
    the function only assigns to the video element behind [videoRef], which
    this page attaches to no element; the state is not touched. *)
Definition seekFrame (direction : Z) (s : State) : State :=
  if isFrameAnnotationMode s then
    let newIndex := currentFrameIndex s + direction in
    setCurrentFrameIndex
      (Z.max 0 (Z.min newIndex (Z.of_nat (List.length (frames s)) - 1))) s
  else s.

(** The "Previous Frame" and "Next Frame" buttons. *)
Definition previousFrame (s : State) : State :=
  setCurrentFrameIndex (Z.max (currentFrameIndex s - 1) 0) s.

Definition nextFrame (s : State) : State :=
  setCurrentFrameIndex
    (Z.min (currentFrameIndex s + 1) (Z.of_nat (List.length (frames s)) - 1))
    s.

(** [handleKeyDown] of the keyboard effect. *)
Definition handleKeyDown (c : Ctx) (key : string) (s : State)
  : State * list Request :=
  if String.eqb key "Delete" then
    match selectedPolyp s with
    | Some k => handleDeletePolyp c k s
    | None => (s, [])
    end
  else (s, []).

(** [filteredPolyps] of the sidebar.  Outside frame annotation mode it
    keeps the polyps whose [frame] is [null] or [undefined]; a [Polyp] of
    this page always has a number there. *)
Definition filteredPolyps (s : State) : list Polyp :=
  if isFrameAnnotationMode s then
    filter (fun polyp =>
              match currentFrameId s with
              | Some fr => frame polyp =? fr
              | None => false
              end) (polyps s)
  else filter (fun _ => false) (polyps s).

(** [path.split('/').pop()]. *)
Definition pop (parts : list string) : string := last parts EmptyString.

(** [getFrameSrc]; [localhost] is the backend's address and [id] the route
    parameter.  As for [currentFrameId], an index outside a non-empty
    [frames] raises in the source and gives the empty string here. *)
Definition getFrameSrc (localhost id : string) (s : State) : string :=
  match frames s with
  | [] => EmptyString
  | _ =>
      if currentFrameIndex s <? 0 then EmptyString
      else
        match nth_error (frames s) (Z.to_nat (currentFrameIndex s)) with
        | Some f =>
            (localhost ++ "/videos/" ++ id ++ "/get_frame/"
             ++ pop (Duration.split "/" (path f)))%string
        | None => EmptyString
        end
  end.

(** What the component returns: the loading text, the error text, or one of
    the two pages with what its overlay and sidebar are given and the
    rectangle of the drawing indicator. *)
Inductive View : Type :=
| LoadingView
| ErrorView (message : string)
| FramePage (overlay sidebar : list Polyp) (indicator : option Rect)
| VideoPage (overlay sidebar : list Polyp) (indicator : option Rect).

(** The [return] statements of the component; [loading] and [hasMetadata]
    ([videoMetadata] is not [null]) are the two state cells of the metadata
    fetch. *)
Definition render (loading hasMetadata : bool) (s : State) : View :=
  if loading then LoadingView
  else if negb (String.eqb (error s) EmptyString) || negb hasMetadata then
    ErrorView (if String.eqb (error s) EmptyString
               then "Video not found."%string else error s)
  else
    let indicator := if isDrawing s then currentDrawing s else None in
    if isFrameAnnotationMode s
    then FramePage (frameOverlay s) (filteredPolyps s) indicator
    else VideoPage (continuousOverlay s) (filteredPolyps s) indicator.

(** Everything that can happen to the mounted component: the events its
    elements are wired to and the completions of the calls it awaits. *)
Inductive Event : Type :=
| MouseDown (onPolyp : bool) (e : MouseEvent)
| MouseMove (e : MouseEvent)
| MouseUp (now : Z)
| PolypMouseDown (e : MouseEvent) (polypId : Z)
| HandleMouseDown (e : MouseEvent) (polypId : Z)
| SelectPolyp (polypId : Z)
| EndClicked (polypId : Z)
| NoteClicked (note : option string) (polypId : Z)
| DeleteClicked (polypId : Z)
| KeyDown (key : string)
| ExitClicked
| EnterClicked
| PreviousClicked
| NextClicked
| SeekClicked (direction : Z)
| LoadEffect
| SaveSettled (r : Settled unit)
| DeleteSettled (sel : option Z) (polypId : Z) (r : Settled unit)
| FramesSettled (r : option (list FrameInfo))
| LoadSettled (fr : Z) (r : Settled (list FetchedAnnotation)).

(** The wiring of the JSX: which function each event runs.  [container] is
    what [videoContainerRef.current?.getBoundingClientRect()] gives at that
    moment. *)
Definition step (c : Ctx) (container : option DOMRect) (ev : Event)
  (s : State) : State * list Request :=
  match ev with
  | MouseDown onPolyp e => (handleMouseDown onPolyp e container s, [])
  | MouseMove e => handleMouseMove c e container s
  | MouseUp now => handleMouseUp c now s
  | PolypMouseDown e polypId => (startDrag e polypId container s, [])
  | HandleMouseDown e polypId => (startResize e polypId s, [])
  | SelectPolyp polypId => (setSelectedPolyp (Some polypId) s, [])
  | EndClicked polypId => handleEndPolyp c polypId s
  | NoteClicked note polypId => handleAddNote c note polypId s
  | DeleteClicked polypId => handleDeletePolyp c polypId s
  | KeyDown key => handleKeyDown c key s
  | ExitClicked => (exitFrameMode s, [])
  | EnterClicked => fetchFrames s
  | PreviousClicked => (previousFrame s, [])
  | NextClicked => (nextFrame s, [])
  | SeekClicked direction => (seekFrame direction s, [])
  | LoadEffect => loadAnnotations c s
  | SaveSettled r => (saveAnnotation_settled r s, [])
  | DeleteSettled sel polypId r => (handleDeletePolyp_settled sel polypId r s, [])
  | FramesSettled r => (fetchFrames_settled r s, [])
  | LoadSettled fr r => (loadAnnotations_settled fr r s, [])
  end.

(** A run of events, each with the container rectangle of its moment. *)
Fixpoint run (c : Ctx) (evs : list (option DOMRect * Event)) (s : State)
  : State * list Request :=
  match evs with
  | [] => (s, [])
  | (container, ev) :: rest =>
      let '(s1, r1) := step c container ev s in
      let '(s2, r2) := run c rest s1 in
      (s2, r1 ++ r2)
  end.

(** The events a pointer produces on the frame viewer and on the overlay. *)
Definition isPointerEvent (ev : Event) : bool :=
  match ev with
  | MouseDown _ _ | MouseMove _ | PolypMouseDown _ _ | HandleMouseDown _ _ =>
      true
  | _ => false
  end.

(** A drag is in progress on the annotations with id [sel]. *)
Definition dragging (sel : Z) (s : State) : Prop :=
  isFrameAnnotationMode s = true /\ isDrawing s = false
  /\ isResizing s = false /\ isDragging s = true
  /\ selectedPolyp s = Some sel.

(** The gesture interpreter is not dragging and resizing at once. *)
Definition notBoth (s : State) : Prop :=
  isDragging s = false \/ isResizing s = false.

(** The record a backend that keeps the posted fields returns, under the
    names [loadAnnotations] reads.  The times travel as the doubles the
    source computes for their quotients. *)
Definition asFetched (a : Service.AnnotationBase) : FetchedAnnotation :=
  mkFetched (Service.polyp_id a) (Service.x1 a) (Service.y1 a)
    (Service.width a) (Service.height a) (Js.ofQ (Service.start_time a))
    (option_map Js.ofQ (Service.end_time a)) (Some (Service.content a)).

End Session.

(** * Properties *)

Import Page.

(** ** Helpers on the state and on lists of polyps *)

Lemma mapWhere_absent (k : Z) (f : Polyp -> Polyp) (ps : list Polyp) :
  findPolyp k ps = None -> mapWhere k f ps = ps.
Proof.
  unfold mapWhere, findPolyp.
  induction ps as [|p ps IH]; simpl; intros H; [reflexivity|].
  destruct (id p =? k); [discriminate|].
  now rewrite IH.
Qed.


Lemma filter_absent (k : Z) (ps : list Polyp) :
  findPolyp k ps = None -> filter (fun p => id p =? k) ps = [].
Proof.
  unfold findPolyp.
  induction ps as [|p ps IH]; simpl; intros H; [reflexivity|].
  destruct (id p =? k); [discriminate|]. now apply IH.
Qed.

Lemma last_cons_default {A : Type} (a : A) (l : list A) (d d' : A) :
  last (a :: l) d = last (a :: l) d'.
Proof.
  revert a. induction l as [|b l IH]; intros a; [reflexivity|].
  change (last (b :: l) d = last (b :: l) d'). apply IH.
Qed.

(** ** Drawing *)

Section Drawing.

Variables (c : Ctx) (ct : DOMRect).

(** While drawing, moves only replace the preview rectangle; the last one
    wins and nothing is requested from the backend. *)
Lemma moves_while_drawing (es : list MouseEvent) :
  forall s : State,
    isFrameAnnotationMode s = true ->
    isDrawing s = true ->
    moves c (Some ct) es s =
      (match es with
       | [] => s
       | e0 :: _ =>
           let e := last es e0 in
           setCurrentDrawing
             (Some (drawingRect (drawingStart s)
                      (clientX e - left ct) (clientY e - top ct))) s
       end, []).
Proof.
  induction es as [|e rest IH]; intros s Hmode Hdraw; [reflexivity|].
  cbn [moves]. unfold handleMouseMove. rewrite Hmode, Hdraw. cbn [negb].
  rewrite IH by assumption.
  destruct rest as [|e1 rest1]; [reflexivity|].
  cbv zeta. rewrite (last_cons_default e1 rest1 e1 e). reflexivity.
Qed.

Lemma drawingRect_min_abs (start : Point) (cx cy : Z) :
  drawingRect start cx cy =
    mkRect (Z.min (x start) cx) (Z.min (y start) cy)
           (Z.abs (cx - x start)) (Z.abs (cy - y start)).
Proof.
  unfold drawingRect. cbv zeta.
  destruct (Z.ltb_spec (cx - x start) 0), (Z.ltb_spec (cy - y start) 0);
    f_equal; lia.
Qed.

(** The whole gesture, as one store update and one save. *)
Lemma drawGesture_run
  (press : MouseEvent) (es : list MouseEvent) (now fr : Z) (s : State) :
  isFrameAnnotationMode s = true ->
  currentFrameId s = Some fr ->
  let start := mkPoint (clientX press - left ct) (clientY press - top ct) in
  let release := last es press in
  let p :=
    newPolyp now fr (currentFrameIndex s)
      (drawingRect start (clientX release - left ct)
         (clientY release - top ct)) in
  drawGesture c (Some ct) press es now s =
    saveAnnotation c p
      (setCurrentDrawing None
         (setIsDrawing false
            (setPolyps (polyps s ++ [p])
               (setSelectedPolyp None (setDrawingStart start s))))).
Proof.
  intros Hmode Hfr. cbv zeta.
  unfold drawGesture, handleMouseDown. rewrite Hmode. cbn [negb].
  rewrite moves_while_drawing by first [exact Hmode | reflexivity].
  destruct es as [|e0 rest].
  - unfold handleMouseUp. cbn [isDrawing currentDrawing setSelectedPolyp
      setCurrentDrawing setDrawingStart setIsDrawing].
    change (currentFrameId _) with (currentFrameId s). rewrite Hfr.
    cbn [last]. rewrite drawingRect_min_abs. cbn [x y].
    rewrite !Z.min_id, !Z.sub_diag. cbn [Z.abs].
    unfold saveAnnotation. destruct (hasToken c); reflexivity.
  - unfold handleMouseUp.
    cbn [isDrawing currentDrawing setSelectedPolyp setCurrentDrawing
         setDrawingStart setIsDrawing drawingStart].
    change (currentFrameId _) with (currentFrameId s). rewrite Hfr.
    rewrite (last_cons_default e0 rest press e0).
    unfold saveAnnotation. destruct (hasToken c); reflexivity.
Qed.

(** C1. A draw gesture in frame annotation mode with a current frame
    (press off any polyp, any number of moves, release) appends one open
    annotation to the store.  [handleMouseUp] receives no event, so the
    release point is where the pointer was last reported: the last move, or
    the press point when there was none.  The annotation's position is the
    component-wise minimum of press and release points, its size the
    component-wise absolute difference, [startFrame] is the current frame
    index plus one and [endFrame] is [null]; with a credential present the
    same annotation is sent to the backend. *)
Theorem draw_release_creates_open_annotation
  (press : MouseEvent) (es : list MouseEvent) (now fr : Z) (s : State) :
  isFrameAnnotationMode s = true ->
  currentFrameId s = Some fr ->
  let release := last es press in
  let px := clientX press - left ct in
  let py := clientY press - top ct in
  let qx := clientX release - left ct in
  let qy := clientY release - top ct in
  let p :=
    mkPolyp now fr EmptyString (currentFrameIndex s + 1) None
      (mkPoint (Z.min px qx) (Z.min py qy))
      (mkSize (Z.abs (qx - px)) (Z.abs (qy - py))) in
  let '(s', reqs) := drawGesture c (Some ct) press es now s in
  polyps s' = polyps s ++ [p]
  /\ isDrawing s' = false
  /\ (hasToken c = true -> reqs = [CreateOrUpdate (annotationData c p)]).
Proof.
  intros Hmode Hfr. cbv zeta.
  rewrite (drawGesture_run press es now fr s Hmode Hfr). cbv zeta.
  rewrite drawingRect_min_abs. unfold saveAnnotation, newPolyp.
  cbn [rx ry rwidth rheight x y].
  destruct (hasToken c); cbn; repeat split; try reflexivity; discriminate.
Qed.

End Drawing.

(** The running example of the specification: on frame index 4, a drag from
    (50,50) to (150,120) stores position (50,50), size (100,70),
    [startFrame = 5], [endFrame = null]. *)
Lemma draw_release_example :
  let '(s', reqs) :=
    drawGesture Examples.user (Some Examples.surface) (mkMouseEvent 50 50)
      [mkMouseEvent 90 70; mkMouseEvent 150 120] 1700000000000
      (Examples.viewing 4 []) in
  polyps s' = [] ++ [Examples.drawn]
  /\ isDrawing s' = false
  /\ (hasToken Examples.user = true ->
      reqs = [CreateOrUpdate (annotationData Examples.user Examples.drawn)]).
Proof.
  exact (draw_release_creates_open_annotation Examples.user Examples.surface
           (mkMouseEvent 50 50) [mkMouseEvent 90 70; mkMouseEvent 150 120]
           1700000000000 104 (Examples.viewing 4 []) eq_refl eq_refl).
Defined.

(** ** Moving, resizing and ending *)

Lemma mapWhere_In (k : Z) (f : Polyp -> Polyp) (ps : list Polyp) (p : Polyp) :
  In p ps -> id p = k -> In (f p) (mapWhere k f ps).
Proof.
  intros Hin Hid. unfold mapWhere.
  apply in_map_iff. exists p. split; [|assumption].
  apply Z.eqb_eq in Hid. now rewrite Hid.
Qed.

Lemma In_findPolyp (k : Z) (ps : list Polyp) (p : Polyp) :
  In p ps -> id p = k -> findPolyp k ps <> None.
Proof.
  intros Hin Hid Hnone. unfold findPolyp in Hnone.
  apply (find_none _ _ Hnone) in Hin. cbv beta in Hin.
  apply Z.eqb_neq in Hin. contradiction.
Qed.

Lemma onDrag_polyps (c : Ctx) (e : MouseEvent) (ct : DOMRect) (s : State)
  (sel : Z) :
  isDragging s = true ->
  selectedPolyp s = Some sel ->
  polyps (fst (onDrag c e (Some ct) s)) =
    mapWhere sel (dragged e ct (dragStart s)) (polyps s).
Proof.
  intros Hd Hs. unfold onDrag. rewrite Hd, Hs.
  destruct (saveEach c _ s) as [s1 reqs]. reflexivity.
Qed.

Lemma onResize_polyps (e : MouseEvent) (ct : DOMRect) (s : State) (sel : Z) :
  isResizing s = true ->
  selectedPolyp s = Some sel ->
  polyps (onResize e (Some ct) s) =
    mapWhere sel
      (resized (clientX e - x (dragStart s)) (clientY e - y (dragStart s)) ct)
      (polyps s).
Proof.
  intros Hr Hs. unfold onResize. rewrite Hr, Hs.
  destruct (findPolyp sel (polyps s)) eqn:Hf; [reflexivity|].
  symmetry. now apply mapWhere_absent.
Qed.

Lemma handleEndPolyp_polyps (c : Ctx) (k fr : Z) (s : State) :
  isFrameAnnotationMode s = true ->
  currentFrameId s = Some fr ->
  polyps (fst (handleEndPolyp c k s)) =
    mapWhere k (withEndFrame (Some (currentFrameIndex s + 1))) (polyps s).
Proof.
  intros Hm Hf. unfold handleEndPolyp. rewrite Hm, Hf.
  destruct (findPolyp k (polyps s)); [|reflexivity].
  unfold saveAnnotation. destruct (hasToken c); reflexivity.
Qed.

(** C2, refuted as stated.  An annotation of the current frame whose
    [endFrame] is set is picked up by a press on its body and the next move
    changes its position: nothing in [startDrag] or [onDrag] looks at
    [endFrame]. *)
Lemma closed_annotation_is_moved_by_drag :
  let s0 := Examples.viewing 9 [Examples.closed] in
  let s1 := startDrag (mkMouseEvent 60 60) 7 (Some Examples.surface) s0 in
  let s2 :=
    fst (handleMouseMove Examples.user (mkMouseEvent 200 200)
           (Some Examples.surface) s1) in
  In Examples.closed (frameOverlay s0)
  /\ endFrame Examples.closed = Some 10
  /\ polyps s2 =
       [mkPolyp 7 109 EmptyString 5 (Some 10) (mkPoint 190 190)
          (mkSize 100 70)]
  /\ ~ (forall p, In p (polyps s2) -> id p = 7 ->
        position p = position Examples.closed).
Proof.
  repeat split; try reflexivity.
  - left. reflexivity.
  - intros H.
    specialize (H (mkPolyp 7 109 EmptyString 5 (Some 10) (mkPoint 190 190)
                    (mkSize 100 70)) (or_introl eq_refl) eq_refl).
    discriminate H.
Qed.

(** C2, amended.  Drag and resize moves apply to the selected annotation
    whether its [endFrame] is set or not: the store afterwards holds the
    annotation with the position (resp. size) computed by the same clamped
    formulas and with its [endFrame] as it was.  The end action, in frame
    annotation mode with a current frame at index [f], stores the annotation
    with [endFrame = f + 1]. *)
Theorem edits_ignore_endFrame_and_end_sets_it
  (c : Ctx) (e : MouseEvent) (ct : DOMRect) (s : State) (k : Z) (p : Polyp) :
  In p (polyps s) ->
  id p = k ->
  (isDragging s = true -> selectedPolyp s = Some k ->
   let p' := dragged e ct (dragStart s) p in
   In p' (polyps (fst (onDrag c e (Some ct) s)))
   /\ endFrame p' = endFrame p
   /\ size p' = size p
   /\ position p' =
        mkPoint
          (Z.max 0 (Z.min (clientX e - left ct - x (dragStart s))
                          (cwidth ct - width (size p))))
          (Z.max 0 (Z.min (clientY e - top ct - y (dragStart s))
                          (cheight ct - height (size p)))))
  /\ (isResizing s = true -> selectedPolyp s = Some k ->
      let p' :=
        resized (clientX e - x (dragStart s)) (clientY e - y (dragStart s))
          ct p in
      In p' (polyps (onResize e (Some ct) s))
      /\ endFrame p' = endFrame p
      /\ position p' = position p
      /\ size p' =
           mkSize
             (Z.max 30 (Z.min (width (size p) + (clientX e - x (dragStart s)))
                              (cwidth ct - x (position p))))
             (Z.max 30 (Z.min (height (size p) + (clientY e - y (dragStart s)))
                              (cheight ct - y (position p)))))
  /\ (isFrameAnnotationMode s = true -> currentFrameId s <> None ->
      let p' := withEndFrame (Some (currentFrameIndex s + 1)) p in
      In p' (polyps (fst (handleEndPolyp c k s)))
      /\ endFrame p' = Some (currentFrameIndex s + 1)
      /\ position p' = position p
      /\ size p' = size p).
Proof.
  intros Hin Hid. repeat split.
  - rewrite (onDrag_polyps c e ct s k) by assumption.
    now apply mapWhere_In.
  - rewrite (onResize_polyps e ct s k) by assumption.
    now apply mapWhere_In.
  - destruct (currentFrameId s) as [fr|] eqn:Hfr; [|contradiction].
    rewrite (handleEndPolyp_polyps c k fr s) by assumption.
    now apply mapWhere_In.
Qed.

(** Ending the running example's annotation while viewing frame index 9
    stores it with [endFrame = 10]. *)
Lemma end_example :
  In (withEndFrame (Some 10) Examples.drawn)
     (polyps (fst (handleEndPolyp Examples.user 1700000000000
                     (Examples.viewing 9 [Examples.drawn])))).
Proof.
  exact (proj1
           (proj2 (proj2
              (edits_ignore_endFrame_and_end_sets_it Examples.user
                 (mkMouseEvent 0 0) Examples.surface
                 (Examples.viewing 9 [Examples.drawn]) 1700000000000
                 Examples.drawn (or_introl eq_refl) eq_refl))
              eq_refl (fun H => ltac:(discriminate H)))).
Defined.

(** ** Bounds of the stored geometry *)









(** ** Mode switches and the continuous view *)

Lemma continuousOverlay_In (s : State) (p : Polyp) :
  In p (continuousOverlay s) <->
  In p (polyps s) /\ (endFrame p = None \/ endFrame p = Some 0).
Proof.
  unfold continuousOverlay. rewrite filter_In.
  split; intros [Hin H]; (split; [assumption|]).
  - destruct (endFrame p) as [n|]; [|now left].
    right. cbn in H. destruct (Z.eqb_spec n 0); [now subst|discriminate].
  - destruct H as [H|H]; rewrite H; reflexivity.
Qed.

(** C5, refuted as stated.  With the running example in the store on frame
    index 4, leaving frame mode and entering it again reloads the store for
    frame index 0, for which the backend has nothing: the annotation is gone
    from the store.  And an annotation loaded with [endFrame = 0] has its
    [endFrame] set and is part of the continuous view. *)
Lemma round_trip_reloads_and_view_shows_endFrame_zero :
  (let s := Examples.viewing 4 [Examples.drawn] in
   In Examples.drawn (polyps s)
   /\ ~ In Examples.drawn
          (polyps (reenterFrameMode Examples.user Examples.tenFrames
                     (Js.Resolved []) s)))
  /\ (let s :=
        exitFrameMode
          (loadAnnotations_settled 104 (Js.Resolved [Examples.barelyEnded])
             (Examples.viewing 4 [])) in
      exists p, In p (continuousOverlay s) /\ endFrame p = Some 0).
Proof.
  split.
  - split; [left; reflexivity|]. intros H. exact H.
  - eexists. split; [left; reflexivity|]. reflexivity.
Qed.

(** C5, amended.  Leaving frame annotation mode leaves the store as it is,
    and so does entering it again up to the annotation load for frame index
    0: when that load succeeds the store is replaced by what the backend
    returned for that frame, when it fails the store is kept.  The
    continuous view holds exactly the stored annotations whose [endFrame] is
    [null] or 0, so it never includes one with a non-zero [endFrame]. *)
Theorem mode_round_trip_and_continuous_view
  (c : Ctx) (s : State) (f0 : FrameInfo) (rest : list FrameInfo) :
  hasToken c = true ->
  polyps (exitFrameMode s) = polyps s
  /\ polyps (fetchFrames_settled (Some (f0 :: rest))
               (fst (fetchFrames (exitFrameMode s)))) = polyps s
  /\ (forall annotations,
         polyps (reenterFrameMode c (f0 :: rest) (Js.Resolved annotations) s) =
           map (mappedPolyp (fid f0)) annotations)
  /\ (forall message,
         polyps (reenterFrameMode c (f0 :: rest) (Js.Rejected message) s) =
           polyps s)
  /\ (forall p,
         In p (continuousOverlay (exitFrameMode s)) <->
         In p (polyps s) /\ (endFrame p = None \/ endFrame p = Some 0))
  /\ (forall p n,
         endFrame p = Some n -> n <> 0 ->
         ~ In p (continuousOverlay (exitFrameMode s))).
Proof.
  intros Htok.
  assert (Hload : forall loaded,
             reenterFrameMode c (f0 :: rest) loaded s =
               loadAnnotations_settled (fid f0) loaded
                 (fetchFrames_settled (Some (f0 :: rest))
                    (fst (fetchFrames (exitFrameMode s))))).
  { intros loaded. unfold reenterFrameMode, loadAnnotations.
    cbn. rewrite Htok. reflexivity. }
  repeat apply conj.
  - reflexivity.
  - reflexivity.
  - intros annotations. rewrite Hload. reflexivity.
  - intros message. rewrite Hload. reflexivity.
  - intros p. apply (continuousOverlay_In (exitFrameMode s) p).
  - intros p n Hn Hnz Hin.
    apply (continuousOverlay_In (exitFrameMode s) p) in Hin.
    destruct Hin as [_ [H|H]]; rewrite Hn in H; [discriminate|].
    injection H as H. contradiction.
Qed.

(** A round trip whose reload fails keeps the running example in the
    store. *)
Lemma mode_round_trip_example :
  polyps (reenterFrameMode Examples.user Examples.tenFrames
            (Js.Rejected "Failed to fetch annotations.")
            (Examples.viewing 4 [Examples.drawn])) =
    [Examples.drawn].
Proof.
  exact (proj1 (proj2 (proj2 (proj2
           (mode_round_trip_and_continuous_view Examples.user
              (Examples.viewing 4 [Examples.drawn])
              (mkFrameInfo 100 "frame.jpg")
              (List.tl Examples.tenFrames) eq_refl))))
           "Failed to fetch annotations."%string).
Defined.

(** ** Deleting *)

Lemma findPolyp_after_delete (k : Z) (ps : list Polyp) :
  findPolyp k (filter (fun polyp => negb (id polyp =? k)) ps) = None.
Proof.
  unfold findPolyp.
  induction ps as [|p ps IH]; [reflexivity|].
  cbn [filter]. destruct (id p =? k) eqn:E; cbn [negb]; [exact IH|].
  cbn [find]. now rewrite E.
Qed.

Lemma delete_settled_polyps {A : Type} (sel : option Z) (k : Z) (a : A)
  (s : State) :
  polyps (handleDeletePolyp_settled sel k (Js.Resolved a) s) =
    filter (fun polyp => negb (id polyp =? k)) (polyps s).
Proof.
  unfold handleDeletePolyp_settled. destruct (isSelected sel k); reflexivity.
Qed.

Lemma handleEndPolyp_absent (c : Ctx) (k : Z) (s : State) :
  findPolyp k (polyps s) = None ->
  polyps (fst (handleEndPolyp c k s)) = polyps s
  /\ snd (handleEndPolyp c k s) = [].
Proof.
  intros Habs. unfold handleEndPolyp.
  destruct (isFrameAnnotationMode s), (currentFrameId s);
    try (split; reflexivity).
  rewrite Habs. cbn [fst snd polyps setPolyps].
  split; [now apply mapWhere_absent|reflexivity].
Qed.

Lemma drag_absent (c : Ctx) (press e : MouseEvent)
  (container : option DOMRect) (k : Z) (s : State) :
  findPolyp k (polyps s) = None ->
  let r := handleMouseMove c e container (startDrag press k container s) in
  polyps (fst r) = polyps s /\ snd r = [].
Proof.
  intros Habs. cbv zeta. unfold startDrag, handleMouseMove.
  destruct (isFrameAnnotationMode s) eqn:Hm; cbn [negb].
  2:{ rewrite Hm. split; reflexivity. }
  rewrite Habs.
  destruct container as [ct|];
    cbn [isFrameAnnotationMode isDrawing isResizing isDragging
         setSelectedPolyp setIsResizing setIsDragging];
    rewrite Hm; cbn [negb];
    destruct (isDrawing s); try (split; reflexivity).
  unfold onDrag.
  cbn [isDragging selectedPolyp polyps dragStart setSelectedPolyp
       setIsResizing setIsDragging].
  rewrite (filter_absent k (polyps s) Habs).
  cbn [map saveEach fst snd polyps setPolyps].
  split; [now apply mapWhere_absent|reflexivity].
Qed.

(** C7, refuted as stated.  Deleting is not valid in every state, and the
    annotation is removed only once the backend has confirmed: without a
    credential, or without a current frame, nothing is requested and the
    annotation stays; and when the delete call fails the annotation stays
    as well. *)
Lemma delete_can_leave_the_annotation :
  (let r :=
     handleDeletePolyp Examples.anonymous 7
       (Examples.viewing 9 [Examples.closed]) in
   snd r = [] /\ In Examples.closed (polyps (fst r)))
  /\ (let r :=
        handleDeletePolyp Examples.user 7 (Examples.noFrames [Examples.closed])
      in
      snd r = [] /\ In Examples.closed (polyps (fst r)))
  /\ (let s := Examples.viewing 9 [Examples.closed] in
      let r := handleDeletePolyp Examples.user 7 s in
      snd r = [Delete 109 7]
      /\ In Examples.closed
           (polyps
              (handleDeletePolyp_settled (selectedPolyp s) 7
                 (Service.deleteAnnotation (A := unit)
                    (Service.AxiosError None))
                 (fst r)))).
Proof.
  repeat split; left; reflexivity.
Qed.

(** C7, amended.  With a credential and a current frame, deleting issues
    one delete call for that frame and annotation and leaves the store as
    it is until the call settles.  When the call succeeds, every annotation
    with that id is removed from the list and the selection is cleared if it
    was that annotation; a following end action or drag gesture on that id
    leaves the list unchanged and requests nothing.  When the call fails the
    list is unchanged and the error is recorded. *)
Theorem delete_removes_once_confirmed
  (c : Ctx) (k fr : Z) (s : State) :
  hasToken c = true ->
  currentFrameId s = Some fr ->
  handleDeletePolyp c k s = (s, [Delete fr k])
  /\ (let s' :=
        handleDeletePolyp_settled (selectedPolyp s) k (Js.Resolved tt) s in
      (forall p, In p (polyps s') <-> In p (polyps s) /\ id p <> k)
      /\ (selectedPolyp s = Some k -> selectedPolyp s' = None)
      /\ (selectedPolyp s <> Some k -> selectedPolyp s' = selectedPolyp s)
      /\ (forall c',
             polyps (fst (handleEndPolyp c' k s')) = polyps s'
             /\ snd (handleEndPolyp c' k s') = [])
      /\ (forall c' press e container,
             let r :=
               handleMouseMove c' e container (startDrag press k container s')
             in
             polyps (fst r) = polyps s' /\ snd r = []))
  /\ (forall detail,
         let s' :=
           handleDeletePolyp_settled (selectedPolyp s) k
             (Service.deleteAnnotation (A := unit) (Service.AxiosError detail))
             s in
         polyps s' = polyps s
         /\ selectedPolyp s' = selectedPolyp s
         /\ error s' =
              ("Failed to delete annotation: "
               ++ Js.orStr detail "Failed to delete annotation.")%string).
Proof.
  intros Htok Hfr. split; [|split]; [| cbv zeta; repeat apply conj |].
  - unfold handleDeletePolyp. now rewrite Htok, Hfr.
  - intros p. rewrite delete_settled_polyps, filter_In.
    split; intros [Hin H]; (split; [assumption|]).
    + destruct (Z.eqb_spec (id p) k); [discriminate|assumption].
    + destruct (Z.eqb_spec (id p) k); [contradiction|reflexivity].
  - intros Hsel. unfold handleDeletePolyp_settled. rewrite Hsel.
    cbn [isSelected]. now rewrite Z.eqb_refl.
  - intros Hsel. unfold handleDeletePolyp_settled.
    destruct (selectedPolyp s) as [j|] eqn:Hj; cbn [isSelected];
      [|exact Hj].
    destruct (Z.eqb_spec k j); [subst; contradiction|]. exact Hj.
  - intros c'. apply handleEndPolyp_absent.
    rewrite delete_settled_polyps. apply findPolyp_after_delete.
  - intros c' press e container. apply drag_absent.
    rewrite delete_settled_polyps. apply findPolyp_after_delete.
  - intros detail. cbv zeta. repeat split.
Qed.

(** Deleting the ended annotation of frame index 9 asks the backend and,
    once confirmed, leaves no annotation with its id. *)
Lemma delete_example :
  let s := Examples.viewing 9 [Examples.closed] in
  handleDeletePolyp Examples.user 7 s = (s, [Delete 109 7])
  /\ (forall p,
         In p (polyps (handleDeletePolyp_settled (selectedPolyp s) 7
                         (Js.Resolved tt) s)) <->
         In p (polyps s) /\ id p <> 7).
Proof.
  pose proof
    (delete_removes_once_confirmed Examples.user 7 109
       (Examples.viewing 9 [Examples.closed]) eq_refl eq_refl)
    as (Hreq & Hdone & _).
  exact (conj Hreq (proj1 Hdone)).
Defined.

(** ** What the end and note actions send *)

Lemma findPolyp_mapWhere (k : Z) (f : Polyp -> Polyp) (ps : list Polyp) :
  (forall p, id (f p) = id p) ->
  findPolyp k (mapWhere k f ps) = option_map f (findPolyp k ps).
Proof.
  intros Hf. unfold findPolyp, mapWhere.
  induction ps as [|p ps IH]; [reflexivity|].
  cbn [map find]. destruct (id p =? k) eqn:E.
  - rewrite Hf, E. reflexivity.
  - rewrite E. exact IH.
Qed.

(** C9. The end and note actions update the store and then look the
    annotation up in the list of the render they were created in, which is
    the list before the update.  With a credential present, the one request
    they issue is built from the annotation as it was before the action: it
    carries the old [endFrame] as its [end_time] ([null] for a first end)
    and the old notes as its content.  The store meanwhile holds the
    annotation with the new value, [endFrame = f + 1] resp. the new notes,
    and with every other field as it was. *)
Theorem end_and_note_send_the_previous_value
  (c : Ctx) (k : Z) (s : State) (old : Polyp) :
  hasToken c = true ->
  findPolyp k (polyps s) = Some old ->
  (isFrameAnnotationMode s = true -> currentFrameId s <> None ->
   let '(s', reqs) := handleEndPolyp c k s in
   findPolyp k (polyps s') =
     Some (mkPolyp (id old) (frame old) (notes old) (startFrame old)
             (Some (currentFrameIndex s + 1)) (position old) (size old))
   /\ exists a,
        reqs = [CreateOrUpdate a]
        /\ a = annotationData c old
        /\ Service.polyp_id a = id old
        /\ Service.content a = notes old
        /\ Service.end_time a =
             match endFrame old with
             | Some e => if e =? 0 then None else Some (inject_Z e / 30)%Q
             | None => None
             end)
  /\ (forall note, note <> EmptyString ->
      let '(s', reqs) := handleAddNote c (Some note) k s in
      findPolyp k (polyps s') =
        Some (mkPolyp (id old) (frame old) note (startFrame old)
                (endFrame old) (position old) (size old))
      /\ exists a,
           reqs = [CreateOrUpdate a]
           /\ a = annotationData c old
           /\ Service.polyp_id a = id old
           /\ Service.content a = notes old
           /\ Service.label a =
                (if String.eqb (notes old) EmptyString
                 then "No Label"%string else notes old)).
Proof.
  intros Htok Hold. split.
  - intros Hmode Hfr. unfold handleEndPolyp. rewrite Hmode.
    destruct (currentFrameId s) as [fr|]; [|contradiction].
    rewrite Hold. unfold saveAnnotation. rewrite Htok. cbn [negb].
    cbn [polyps setSaving setPolyps].
    rewrite findPolyp_mapWhere, Hold by reflexivity.
    split; [reflexivity|].
    exists (annotationData c old). repeat split.
    cbn [annotationData Service.end_time].
    destruct (endFrame old) as [e|]; [|reflexivity].
    cbn [Js.truthyNum option_map]. destruct (e =? 0); reflexivity.
  - intros note Hnote. unfold handleAddNote.
    destruct (String.eqb_spec note EmptyString) as [->|_]; [contradiction|].
    rewrite Hold. unfold saveAnnotation. rewrite Htok. cbn [negb].
    cbn [polyps setSaving setPolyps].
    rewrite findPolyp_mapWhere, Hold by reflexivity.
    split; [reflexivity|].
    exists (annotationData c old). repeat split.
Qed.

(** Ending the running example while viewing frame index 9: the store
    holds [endFrame = 10] and the request carries no [end_time]. *)
Lemma end_sends_previous_value_example :
  let '(s', reqs) :=
    handleEndPolyp Examples.user 1700000000000
      (Examples.viewing 9 [Examples.drawn]) in
  findPolyp 1700000000000 (polyps s') =
    Some (mkPolyp 1700000000000 104 EmptyString 5 (Some (9 + 1))
            (mkPoint 50 50) (mkSize 100 70))
  /\ exists a,
       reqs = [CreateOrUpdate a]
       /\ a = annotationData Examples.user Examples.drawn
       /\ Service.polyp_id a = 1700000000000
       /\ Service.content a = EmptyString
       /\ Service.end_time a = None.
Proof.
  exact (proj1
           (end_and_note_send_the_previous_value Examples.user 1700000000000
              (Examples.viewing 9 [Examples.drawn]) Examples.drawn eq_refl
              eq_refl)
           eq_refl (fun H => ltac:(discriminate H))).
Defined.

(** ** An end frame of zero *)




(** ** Parsing a duration *)

Section Parsing.

Import Duration.

(** *** Doubles of small integers *)

Lemma ofZ_small (z : Z) :
  0 <= z < 2 ^ 63 -> Js.ofZ z = PrimFloat.of_uint63 (Uint63.of_Z z).
Proof.
  intros H. unfold Js.ofZ.
  rewrite <- (SF2Prim_Prim2SF (PrimFloat.of_uint63 (Uint63.of_Z z))).
  rewrite of_uint63_spec, Uint63.of_Z_spec.
  rewrite Z.mod_small; [reflexivity|]. exact H.
Qed.

Lemma below_spec (n : nat) (f : Z -> bool) :
  Js.below n f = true -> forall z, 0 <= z < Z.of_nat n -> f z = true.
Proof.
  induction n as [|k IH]; intros H z Hz; [lia|].
  cbn [Js.below] in H. apply andb_true_iff in H. destruct H as [H1 H2].
  destruct (Z.eq_dec z (Z.of_nat k)) as [->|Hne]; [exact H1|].
  apply IH; [exact H2|lia].
Qed.

(** The sum of the three-part form is exact on fields below 100. *)
Lemma hms_below_100 :
  Js.below 100 (fun h => Js.below 100 (fun m => Js.below 100 (fun s =>
    Leibniz.eqb
      (PrimFloat.of_uint63 (Uint63.of_Z h) * 3600
       + PrimFloat.of_uint63 (Uint63.of_Z m) * 60
       + PrimFloat.of_uint63 (Uint63.of_Z s))%float
      (PrimFloat.of_uint63 (Uint63.of_Z (h * 3600 + m * 60 + s)))))) = true.
Proof. vm_compute. reflexivity. Qed.

Lemma hms_exact (h m s : Z) :
  0 <= h < 100 -> 0 <= m < 100 -> 0 <= s < 100 ->
  (Js.ofZ h * 3600 + Js.ofZ m * 60 + Js.ofZ s)%float =
    PrimFloat.of_uint63 (Uint63.of_Z (h * 3600 + m * 60 + s)).
Proof.
  intros Hh Hm Hs. rewrite !ofZ_small by lia. apply Leibniz.eqb_spec.
  exact (below_spec 100 _
           (below_spec 100 _ (below_spec 100 _ hms_below_100 h Hh) m Hm)
           s Hs).
Qed.

(** The sum of the two-part form is exact on minutes below 1000 and
    seconds below 100. *)
Lemma ms_below_1000_100 :
  Js.below 1000 (fun m => Js.below 100 (fun s =>
    Leibniz.eqb
      (PrimFloat.of_uint63 (Uint63.of_Z m) * 60
       + PrimFloat.of_uint63 (Uint63.of_Z s))%float
      (PrimFloat.of_uint63 (Uint63.of_Z (m * 60 + s))))) = true.
Proof. vm_compute. reflexivity. Qed.

Lemma ms_exact (m s : Z) :
  0 <= m < 1000 -> 0 <= s < 100 ->
  (Js.ofZ m * 60 + Js.ofZ s)%float =
    PrimFloat.of_uint63 (Uint63.of_Z (m * 60 + s)).
Proof.
  intros Hm Hs. rewrite !ofZ_small by lia. apply Leibniz.eqb_spec.
  exact (below_spec 100 _ (below_spec 1000 _ ms_below_1000_100 m Hm) s Hs).
Qed.

(** [n || 0] is [n] on the double of an integer below 1000000. *)
Lemma orZero_below_1000000 :
  Js.below 1000 (fun a => Js.below 1000 (fun b =>
    Leibniz.eqb
      (orZero (PrimFloat.of_uint63 (Uint63.of_Z (a * 1000 + b))))
      (PrimFloat.of_uint63 (Uint63.of_Z (a * 1000 + b))))) = true.
Proof. vm_compute. reflexivity. Qed.

Lemma orZero_exact (v : Z) :
  0 <= v < 1000000 ->
  orZero (Js.ofZ v) = PrimFloat.of_uint63 (Uint63.of_Z v).
Proof.
  intros Hv. rewrite ofZ_small by lia.
  assert (Ha : 0 <= v / 1000 < Z.of_nat 1000)
    by (split; [apply Z.div_pos; lia|apply Z.div_lt_upper_bound; lia]).
  assert (Hb : 0 <= v mod 1000 < Z.of_nat 1000)
    by (apply Z.mod_pos_bound; lia).
  pose proof
    (below_spec 1000 _
       (below_spec 1000 _ orZero_below_1000000 (v / 1000) Ha)
       (v mod 1000) Hb) as H.
  cbv beta in H.
  replace (v / 1000 * 1000 + v mod 1000) with v in H
    by (rewrite (Z.div_mod v 1000) at 1; lia).
  apply Leibniz.eqb_spec. exact H.
Qed.

(** *** [NaN] in sums and products *)

Lemma SFeqb_irrefl (p : spec_float) : SFeqb p p = false -> p = S754_nan.
Proof.
  destruct p as [s|s| |s m e]; try (destruct s; discriminate);
    [reflexivity|].
  unfold SFeqb, SFcompare.
  destruct s; rewrite Z.compare_refl, ?Pos.compare_cont_refl;
    cbn; rewrite ?Pos.compare_cont_refl; discriminate.
Qed.

Lemma is_nan_Prim2SF (f : float) :
  PrimFloat.is_nan f = true <-> Prim2SF f = S754_nan.
Proof.
  unfold PrimFloat.is_nan. rewrite FloatAxioms.eqb_spec. split.
  - intros H. apply SFeqb_irrefl. now apply negb_true_iff.
  - intros ->. reflexivity.
Qed.

Lemma is_nan_add_l (a b : float) :
  PrimFloat.is_nan a = true -> PrimFloat.is_nan (a + b) = true.
Proof. rewrite !is_nan_Prim2SF, add_spec. now intros ->. Qed.

Lemma is_nan_add_r (a b : float) :
  PrimFloat.is_nan b = true -> PrimFloat.is_nan (a + b) = true.
Proof.
  rewrite !is_nan_Prim2SF, add_spec. intros ->.
  unfold SF64add, SFadd. now destruct (Prim2SF a).
Qed.

Lemma is_nan_mul_l (a b : float) :
  PrimFloat.is_nan a = true -> PrimFloat.is_nan (a * b) = true.
Proof. rewrite !is_nan_Prim2SF, mul_spec. now intros ->. Qed.

Lemma is_nan_orZero (n : float) : PrimFloat.is_nan (orZero n) = false.
Proof.
  unfold orZero. destruct (PrimFloat.is_nan n) eqn:E; [reflexivity|].
  cbn [orb]. destruct (PrimFloat.is_zero n); [reflexivity|exact E].
Qed.

(** *** Numerals *)

Lemma digitChar_props (d : Z) :
  0 <= d <= 9 ->
  digitOf (digitChar d) = Some d
  /\ (forall rest,
         trimStart (String (digitChar d) rest) = String (digitChar d) rest)
  /\ Ascii.eqb (digitChar d) ":" = false
  /\ digitChar d <> "-"%char
  /\ digitChar d <> "+"%char.
Proof.
  intros H.
  assert (Hd : d = 0 \/ d = 1 \/ d = 2 \/ d = 3 \/ d = 4 \/ d = 5 \/ d = 6
               \/ d = 7 \/ d = 8 \/ d = 9) by lia.
  repeat (destruct Hd as [->|Hd]); try subst d;
    (split; [reflexivity|];
     split; [intros [|b [|c r]]; reflexivity|];
     repeat split; discriminate).
Qed.

Lemma valueOf_nonneg (ds : list Z) :
  Forall (fun d => 0 <= d <= 9) ds -> 0 <= valueOf ds.
Proof.
  induction 1 as [|d ds Hd Hds IH]; [reflexivity|].
  cbn [valueOf]. pose proof (Z.pow_nonneg 10 (Z.of_nat (List.length ds))).
  nia.
Qed.

Lemma digits_numeral (ds : list Z) :
  Forall (fun d => 0 <= d <= 9) ds ->
  forall v tail,
    (match tail with
     | EmptyString => True
     | String a _ => digitOf a = None
     end) ->
    digits (Some v) (numeral ds ++ tail) =
      Some (v * 10 ^ Z.of_nat (List.length ds) + valueOf ds).
Proof.
  induction 1 as [|d ds Hd Hds IH]; intros v tail Htail.
  - cbn [numeral String.append List.length valueOf Z.of_nat].
    replace (v * 10 ^ 0 + 0) with v by lia.
    destruct tail as [|a tail]; [reflexivity|].
    cbn [digits]. now rewrite Htail.
  - cbn [numeral String.append digits].
    destruct (digitChar_props d Hd) as [-> _].
    rewrite IH by assumption. f_equal.
    cbn [List.length valueOf]. rewrite Nat2Z.inj_succ, Z.pow_succ_r by lia.
    ring.
Qed.

Lemma parseInt_numeral_then (ds : list Z) (tail : string) :
  isDigits ds ->
  (match tail with
   | EmptyString => True
   | String a _ => digitOf a = None
   end) ->
  parseInt (numeral ds ++ tail) = Js.ofZ (valueOf ds).
Proof.
  intros [Hne Hall] Htail. destruct ds as [|d ds]; [contradiction|].
  inversion Hall as [|? ? Hd Hds]; subst.
  destruct (digitChar_props d Hd) as (Hdig & Htrim & _ & Hminus & Hplus).
  unfold parseInt. cbn [numeral String.append]. rewrite Htrim.
  assert (Hrun : digits None (String (digitChar d) (numeral ds ++ tail)) =
                 Some (valueOf (d :: ds))).
  { cbn [digits]. rewrite Hdig.
    rewrite digits_numeral by assumption. f_equal. }
  destruct (digitChar d) as [b0 b1 b2 b3 b4 b5 b6 b7] eqn:E.
  destruct b0, b1, b2, b3, b4, b5, b6, b7;
    try (rewrite Hrun; reflexivity);
    exfalso; [apply Hplus|apply Hminus]; reflexivity.
Qed.

Lemma append_empty_r (s : string) : (s ++ EmptyString)%string = s.
Proof.
  induction s as [|a s IH]; [reflexivity|]. cbn. now rewrite IH.
Qed.

Lemma parseInt_numeral (ds : list Z) :
  isDigits ds -> parseInt (numeral ds) = Js.ofZ (valueOf ds).
Proof.
  intros H. rewrite <- (append_empty_r (numeral ds)).
  now apply parseInt_numeral_then.
Qed.

Lemma split_numeral_last (ds : list Z) :
  Forall (fun d => 0 <= d <= 9) ds ->
  split ":" (numeral ds) = [numeral ds].
Proof.
  induction 1 as [|d ds Hd Hds IH]; [reflexivity|].
  cbn [numeral split].
  destruct (digitChar_props d Hd) as (_ & _ & -> & _).
  now rewrite IH.
Qed.

Lemma split_numeral_colon (ds : list Z) (tail : string) :
  Forall (fun d => 0 <= d <= 9) ds ->
  split ":" (numeral ds ++ String ":" tail) = numeral ds :: split ":" tail.
Proof.
  induction 1 as [|d ds Hd Hds IH]; [reflexivity|].
  cbn [numeral String.append split].
  destruct (digitChar_props d Hd) as (_ & _ & -> & _).
  now rewrite IH.
Qed.

(** C8, refuted as stated.  A string that is neither of the two colon
    forms nor a second count does not always give 0: the fallback returns
    the integer the string starts with. *)
Lemma parseDuration_unrecognized_not_zero :
  parseDuration (OfString "1:2:3:4") = 1%float
  /\ parseDuration (OfString "12abc") = 12%float
  /\ parseDuration (OfString "1:2:3:4") <> 0%float.
Proof.
  split; [vm_compute; reflexivity|]. split; [vm_compute; reflexivity|].
  intros H. apply (f_equal PrimFloat.is_zero) in H. vm_compute in H.
  discriminate.
Qed.

(** With two or three parts the parts are not checked: one that does not
    start with an integer makes the result [NaN]. *)
Example parseDuration_nonnumeric_part :
  parseDuration (OfString "a:b") = nan.
Proof. vm_compute. reflexivity. Qed.

(** C8, amended.  On decimal numerals, with fields below 100 in the
    three-part form, minutes below 1000 and seconds below 100 in the
    two-part form and a single numeral below 1000000, the result is the
    double that is the integer [H*3600 + M*60 + S], [M*60 + S] or the
    numeral's value.  A number is returned as it is, whatever double it
    is, and a value of another type gives 0.  A string with one part or
    with more than three parts gives [parseInt] of the whole string, and 0
    when that is [NaN] or zero; for these strings the result is never
    [NaN]. *)
Theorem parseDuration_forms_and_fallback :
  (forall hs ms ss,
      isDigits hs -> isDigits ms -> isDigits ss ->
      valueOf hs < 100 -> valueOf ms < 100 -> valueOf ss < 100 ->
      parseDuration
        (OfString (numeral hs ++ ":" ++ numeral ms ++ ":" ++ numeral ss)) =
        PrimFloat.of_uint63
          (Uint63.of_Z (valueOf hs * 3600 + valueOf ms * 60 + valueOf ss)))
  /\ (forall ms ss,
         isDigits ms -> isDigits ss ->
         valueOf ms < 1000 -> valueOf ss < 100 ->
         parseDuration (OfString (numeral ms ++ ":" ++ numeral ss)) =
           PrimFloat.of_uint63 (Uint63.of_Z (valueOf ms * 60 + valueOf ss)))
  /\ (forall ds,
         isDigits ds -> valueOf ds < 1000000 ->
         parseDuration (OfString (numeral ds)) =
           PrimFloat.of_uint63 (Uint63.of_Z (valueOf ds)))
  /\ (forall n, parseDuration (OfNumber n) = n)
  /\ parseDuration OfOther = 0%float
  /\ (forall str,
         List.length (split ":" str) <> 2%nat ->
         List.length (split ":" str) <> 3%nat ->
         parseDuration (OfString str) =
           (if PrimFloat.is_nan (parseInt str)
               || PrimFloat.is_zero (parseInt str)
            then 0%float else parseInt str)
         /\ PrimFloat.is_nan (parseDuration (OfString str)) = false
         /\ (PrimFloat.is_nan (parseInt str) = true ->
             parseDuration (OfString str) = 0%float)).
Proof.
  repeat apply conj.
  - intros hs ms ss Hh Hm Hs Bh Bm Bs. unfold parseDuration.
    change (numeral hs ++ ":" ++ numeral ms ++ ":" ++ numeral ss)%string
      with (numeral hs ++ String ":" (numeral ms ++ String ":" (numeral ss)))
             %string.
    rewrite !split_numeral_colon, split_numeral_last
      by (apply Hh || apply Hm || apply Hs).
    cbn [map]. rewrite !parseInt_numeral by assumption.
    pose proof (valueOf_nonneg hs (proj2 Hh)).
    pose proof (valueOf_nonneg ms (proj2 Hm)).
    pose proof (valueOf_nonneg ss (proj2 Hs)).
    apply hms_exact; lia.
  - intros ms ss Hm Hs Bm Bs. unfold parseDuration.
    change (numeral ms ++ ":" ++ numeral ss)%string
      with (numeral ms ++ String ":" (numeral ss))%string.
    rewrite split_numeral_colon, split_numeral_last
      by (apply Hm || apply Hs).
    cbn [map]. rewrite !parseInt_numeral by assumption.
    pose proof (valueOf_nonneg ms (proj2 Hm)).
    pose proof (valueOf_nonneg ss (proj2 Hs)).
    apply ms_exact; lia.
  - intros ds Hd Bd. unfold parseDuration.
    rewrite split_numeral_last by apply Hd.
    cbn [map]. rewrite parseInt_numeral by assumption.
    pose proof (valueOf_nonneg ds (proj2 Hd)).
    apply orZero_exact; lia.
  - reflexivity.
  - reflexivity.
  - intros str H2 H3.
    assert (Hfall : parseDuration (OfString str) = orZero (parseInt str)).
    { unfold parseDuration.
      destruct (split ":" str) as [|a [|b [|c [|d l]]]]; cbn in *;
        try reflexivity; contradiction. }
    rewrite Hfall. split; [reflexivity|]. split; [apply is_nan_orZero|].
    intros Hn. unfold orZero. now rewrite Hn.
Qed.

(** The three forms on the strings ["01:30:00"], ["02:05"] and ["90"]. *)
Lemma parseDuration_example :
  parseDuration (OfString "01:30:00") = 5400%float
  /\ parseDuration (OfString "02:05") = 125%float
  /\ parseDuration (OfString "90") = 90%float.
Proof.
  assert (D : forall a b : Z, 0 <= a <= 9 -> 0 <= b <= 9 -> isDigits [a; b]).
  { intros a b Ha Hb. split; [discriminate|].
    apply Forall_cons; [exact Ha|].
    apply Forall_cons; [exact Hb|apply Forall_nil]. }
  destruct parseDuration_forms_and_fallback as (H3 & H2 & H1 & _).
  split; [|split].
  - exact (H3 [0; 1] [3; 0] [0; 0] (D 0 1 ltac:(lia) ltac:(lia))
             (D 3 0 ltac:(lia) ltac:(lia)) (D 0 0 ltac:(lia) ltac:(lia))
             eq_refl eq_refl eq_refl).
  - exact (H2 [0; 2] [0; 5] (D 0 2 ltac:(lia) ltac:(lia))
             (D 0 5 ltac:(lia) ltac:(lia)) eq_refl eq_refl).
  - exact (H1 [9; 0] (D 9 0 ltac:(lia) ltac:(lia)) eq_refl).
Defined.

End Parsing.

(** * Further properties of the page *)

(** ** Frame navigation *)

Section Navigation.

Import Session.

Lemma currentFrameId_in_range (s : State) :
  0 <= currentFrameIndex s < Z.of_nat (List.length (frames s)) ->
  exists f,
    nth_error (frames s) (Z.to_nat (currentFrameIndex s)) = Some f
    /\ currentFrameId s = Some (fid f).
Proof.
  intros Hr. unfold currentFrameId.
  destruct (nth_error (frames s) (Z.to_nat (currentFrameIndex s)))
    as [f|] eqn:Hn.
  - exists f. split; [reflexivity|].
    destruct (frames s); [cbn in Hr; lia|].
    destruct (Z.ltb_spec (currentFrameIndex s) 0); [lia|reflexivity].
  - apply nth_error_None in Hn. lia.
Qed.

(** X1. With at least one frame, [seekFrame] in frame annotation mode lands
    on an index of the frame list whatever the index before and whatever
    the step, so a current frame exists afterwards; the two frame buttons
    keep an index of the list inside it.  None of the three touches the
    stored annotations. *)
Theorem navigation_keeps_index_in_frames (s : State) (direction : Z) :
  frames s <> [] ->
  let inside (t : State) :=
    0 <= currentFrameIndex t < Z.of_nat (List.length (frames t)) in
  (isFrameAnnotationMode s = true ->
   inside (seekFrame direction s)
   /\ currentFrameId (seekFrame direction s) <> None
   /\ polyps (seekFrame direction s) = polyps s)
  /\ (inside s ->
      inside (previousFrame s) /\ inside (nextFrame s)
      /\ currentFrameId (previousFrame s) <> None
      /\ currentFrameId (nextFrame s) <> None
      /\ polyps (previousFrame s) = polyps s
      /\ polyps (nextFrame s) = polyps s).
Proof.
  intros Hne inside.
  assert (Hlen : 0 < Z.of_nat (List.length (frames s)))
    by (destruct (frames s); [contradiction|cbn; lia]).
  assert (Hsome : forall t, inside t -> currentFrameId t <> None).
  { intros t Ht. destruct (currentFrameId_in_range t Ht) as [f [_ ->]].
    discriminate. }
  split.
  - intros Hm.
    assert (Hin : inside (seekFrame direction s)).
    { unfold inside, seekFrame. rewrite Hm.
      cbn [currentFrameIndex frames setCurrentFrameIndex]. lia. }
    repeat split; try apply Hin.
    + apply Hsome, Hin.
    + unfold seekFrame. rewrite Hm. reflexivity.
  - intros Hs.
    assert (Hp : inside (previousFrame s))
      by (unfold inside, previousFrame in *;
          cbn [currentFrameIndex frames setCurrentFrameIndex]; lia).
    assert (Hn : inside (nextFrame s))
      by (unfold inside, nextFrame in *;
          cbn [currentFrameIndex frames setCurrentFrameIndex]; lia).
    repeat split; try apply Hp; try apply Hn; apply Hsome; assumption.
Qed.

(** From frame index 9 of ten frames a seek by 100 stays on index 9 and a
    seek by -100 goes to index 0. *)
Lemma navigation_example :
  (0 <= currentFrameIndex (seekFrame 100 (Examples.viewing 9 []))
     < Z.of_nat (List.length (frames (seekFrame 100 (Examples.viewing 9 []))))
   /\ currentFrameId (seekFrame 100 (Examples.viewing 9 [])) <> None
   /\ polyps (seekFrame 100 (Examples.viewing 9 [])) =
      polyps (Examples.viewing 9 []))
  /\ currentFrameIndex (seekFrame 100 (Examples.viewing 9 [])) = 9
  /\ currentFrameIndex (seekFrame (-100) (Examples.viewing 9 [])) = 0.
Proof.
  split; [|split; reflexivity].
  exact (proj1
           (navigation_keeps_index_in_frames (Examples.viewing 9 []) 100
              ltac:(discriminate))
           eq_refl).
Defined.

(** X2. With an empty frame list there is no current frame, and in frame
    annotation mode nothing can be stored or sent: a whole draw gesture
    leaves the annotations as they are and requests nothing (and
    [isDrawing] stays set after the release), the end action does nothing,
    deleting only records an error, and no load is started. *)
Theorem no_frames_nothing_stored_or_sent
  (c : Ctx) (ct : DOMRect) (s : State) :
  frames s = [] ->
  isFrameAnnotationMode s = true ->
  (forall press es now,
      let r := drawGesture c (Some ct) press es now s in
      polyps (fst r) = polyps s /\ snd r = [] /\ isDrawing (fst r) = true)
  /\ (forall k, handleEndPolyp c k s = (s, []))
  /\ (forall k,
         polyps (fst (handleDeletePolyp c k s)) = polyps s
         /\ snd (handleDeletePolyp c k s) = []
         /\ error (fst (handleDeletePolyp c k s)) <> EmptyString)
  /\ loadAnnotations c s = (s, []).
Proof.
  intros Hf Hm.
  assert (Hnone : currentFrameId s = None)
    by (unfold currentFrameId; now rewrite Hf).
  repeat apply conj.
  - intros press es now. cbv zeta.
    unfold drawGesture, handleMouseDown. rewrite Hm. cbn [negb].
    rewrite moves_while_drawing by first [exact Hm | reflexivity].
    unfold handleMouseUp.
    destruct es as [|e0 rest];
      cbn [isDrawing currentDrawing setSelectedPolyp setCurrentDrawing
           setDrawingStart setIsDrawing];
      change (currentFrameId _) with (currentFrameId s); rewrite Hnone;
      repeat split.
  - intros k. unfold handleEndPolyp. now rewrite Hm, Hnone.
  - intros k. unfold handleDeletePolyp. rewrite Hnone.
    destruct (negb (hasToken c)); repeat split; discriminate.
  - unfold loadAnnotations. now rewrite Hnone.
Qed.

(** A draw gesture after the backend answered with no frames. *)
Lemma no_frames_example :
  let r :=
    drawGesture Examples.user (Some Examples.surface) (mkMouseEvent 50 50)
      [mkMouseEvent 150 120] 1700000000000 (Examples.noFrames []) in
  polyps (fst r) = polyps (Examples.noFrames [])
  /\ snd r = [] /\ isDrawing (fst r) = true.
Proof.
  exact (proj1
           (no_frames_nothing_stored_or_sent Examples.user Examples.surface
              (Examples.noFrames []) eq_refl eq_refl)
           (mkMouseEvent 50 50) [mkMouseEvent 150 120] 1700000000000).
Defined.

End Navigation.

(** ** Invariants of the event wiring *)

Section Wiring.

Import Session.

Variable c : Ctx.

(** A run of saves only touches the error and the saving flag. *)
Lemma saveEach_shape (ps : list Polyp) :
  forall s : State,
  exists m v,
    fst (saveEach c ps s) = setSaving v (setError m s)
    /\ (m = error s
        \/ m = "Authentication required to save annotations."%string).
Proof.
  induction ps as [|p ps IH]; intros s.
  - exists (error s), (saving s). split; [destruct s; reflexivity|now left].
  - cbn [saveEach]. unfold saveAnnotation.
    destruct (negb (hasToken c)).
    + destruct (IH (setError "Authentication required to save annotations." s))
        as (m & v & Heq & Hm).
      destruct (saveEach c ps (setError _ s)) as [s2 r2]. cbn [fst] in *.
      exists m, v. split; [rewrite Heq; reflexivity|].
      destruct Hm as [Hm|Hm]; [right; exact Hm|right; exact Hm].
    + destruct (IH (setSaving true s)) as (m & v & Heq & Hm).
      destruct (saveEach c ps (setSaving true s)) as [s2 r2]. cbn [fst] in *.
      exists m, v. split; [rewrite Heq; reflexivity|exact Hm].
Qed.

Lemma step_continuous_inert (container : option DOMRect) (ev : Event)
  (s : State) :
  isFrameAnnotationMode s = false ->
  isPointerEvent ev = true ->
  step c container ev s = (s, []).
Proof.
  intros Hm Hp.
  destruct ev; try discriminate Hp; cbn [step];
    unfold handleMouseDown, handleMouseMove, startDrag, startResize;
    rewrite Hm; reflexivity.
Qed.

(** X3. Outside frame annotation mode pointer input is inert: no sequence
    of presses and moves on the surface or on the annotations' bodies and
    resize handles changes any part of the state or sends a request. *)
Theorem pointer_input_inert_in_continuous_mode
  (evs : list (option DOMRect * Event)) (s : State) :
  isFrameAnnotationMode s = false ->
  Forall (fun p => isPointerEvent (snd p) = true) evs ->
  run c evs s = (s, []).
Proof.
  intros Hm Hall. induction Hall as [|[container ev] rest Hev _ IH];
    [reflexivity|].
  cbn [run]. cbn [snd] in Hev.
  rewrite (step_continuous_inert container ev s Hm Hev).
  now rewrite IH.
Qed.

Lemma step_keeps_error (container : option DOMRect) (ev : Event) (s : State) :
  error s <> EmptyString ->
  error (fst (step c container ev s)) <> EmptyString.
Proof.
  intros He.
  destruct ev; cbn [step fst].
  - unfold handleMouseDown.
    destruct (negb (isFrameAnnotationMode s)), onPolyp, container;
      exact He.
  - unfold handleMouseMove, onResize, onDrag.
    destruct (negb (isFrameAnnotationMode s)); [exact He|].
    destruct (isDrawing s); [destruct container; exact He|].
    destruct (isResizing s).
    + destruct (selectedPolyp s) as [sel|], container as [ct|];
        try exact He.
      destruct (findPolyp sel (polyps s)); exact He.
    + destruct (isDragging s); [|exact He].
      destruct (selectedPolyp s) as [sel|], container as [ct|];
        try exact He.
      destruct (saveEach_shape
                  (map (dragged e ct (dragStart s))
                     (filter (fun polyp => id polyp =? sel) (polyps s))) s)
        as (m & v & Heq & Hm).
      destruct (saveEach c _ s) as [s1 r1]. cbn [fst] in *. subst s1.
      cbn [error setPolyps setSaving setError].
      destruct Hm as [->| ->]; [exact He|discriminate].
  - unfold handleMouseUp, saveAnnotation, endDragOrResize.
    destruct (isDrawing s), (currentDrawing s), (currentFrameId s),
      (negb (hasToken c)); first [exact He | discriminate].
  - unfold startDrag.
    destruct (negb (isFrameAnnotationMode s)), container;
      try destruct (findPolyp polypId (polyps s)); exact He.
  - unfold startResize.
    destruct (negb (isFrameAnnotationMode s)); exact He.
  - exact He.
  - unfold handleEndPolyp, saveAnnotation.
    destruct (isFrameAnnotationMode s), (currentFrameId s),
      (findPolyp polypId (polyps s)), (negb (hasToken c));
      first [exact He | discriminate].
  - unfold handleAddNote, saveAnnotation.
    destruct note as [n|]; [|exact He].
    destruct (String.eqb n EmptyString); [exact He|].
    destruct (findPolyp polypId (polyps s)), (negb (hasToken c));
      first [exact He | discriminate].
  - unfold handleDeletePolyp.
    destruct (negb (hasToken c)), (currentFrameId s);
      first [exact He | discriminate].
  - unfold handleKeyDown, handleDeletePolyp.
    destruct (String.eqb key "Delete"), (selectedPolyp s),
      (negb (hasToken c)), (currentFrameId s);
      first [exact He | discriminate].
  - exact He.
  - exact He.
  - exact He.
  - exact He.
  - unfold seekFrame. destruct (isFrameAnnotationMode s); exact He.
  - unfold loadAnnotations.
    destruct (currentFrameId s), (negb (isFrameAnnotationMode s)),
      (negb (hasToken c)); first [exact He | discriminate].
  - unfold saveAnnotation_settled. destruct r; [exact He|discriminate].
  - unfold handleDeletePolyp_settled.
    destruct r; [destruct (isSelected sel polypId); exact He|discriminate].
  - unfold fetchFrames_settled. destruct r; [exact He|discriminate].
  - unfold loadAnnotations_settled. destruct r; [exact He|discriminate].
Qed.

(** X4. Nothing clears the error: once the error cell holds a message, it
    holds one after any run of events and completions, and the component
    (when it is not loading) renders the error text alone, neither of the
    two pages. *)
Theorem error_is_never_cleared
  (evs : list (option DOMRect * Event)) (hasMetadata : bool) :
  forall s : State,
    error s <> EmptyString ->
    let s' := fst (run c evs s) in
    error s' <> EmptyString
    /\ render false hasMetadata s' = ErrorView (error s').
Proof.
  assert (Hview : forall t, error t <> EmptyString ->
                    render false hasMetadata t = ErrorView (error t)).
  { intros t Ht. unfold render.
    destruct (String.eqb_spec (error t) EmptyString); [contradiction|].
    reflexivity. }
  induction evs as [|[container ev] rest IH]; intros s He; cbv zeta.
  - split; [exact He|now apply Hview].
  - cbn [run].
    pose proof (step_keeps_error container ev s He) as H1.
    destruct (step c container ev s) as [s1 r1]. cbn [fst] in H1.
    specialize (IH s1 H1). cbv zeta in IH.
    destruct (run c rest s1) as [s2 r2]. exact IH.
Qed.

Lemma step_keeps_notBoth (container : option DOMRect) (ev : Event)
  (s : State) :
  notBoth s -> notBoth (fst (step c container ev s)).
Proof.
  unfold notBoth. intros H.
  destruct ev; cbn [step fst].
  - unfold handleMouseDown.
    destruct (negb (isFrameAnnotationMode s)), onPolyp, container; exact H.
  - unfold handleMouseMove, onResize, onDrag.
    destruct (negb (isFrameAnnotationMode s)); [exact H|].
    destruct (isDrawing s) eqn:Hd; [destruct container; exact H|].
    destruct (isResizing s) eqn:Hr.
    + assert (Hg : isDragging s = false)
        by (destruct H as [H|H]; [exact H|discriminate H]).
      destruct (selectedPolyp s) as [sel|], container as [ct|];
        try (left; exact Hg).
      destruct (findPolyp sel (polyps s)); left; exact Hg.
    + destruct (isDragging s) eqn:Hg; [|right; exact Hr].
      destruct (selectedPolyp s) as [sel|], container as [ct|];
        try (right; exact Hr).
      destruct (saveEach_shape
                  (map (dragged e ct (dragStart s))
                     (filter (fun polyp => id polyp =? sel) (polyps s))) s)
        as (m & v & Heq & _).
      destruct (saveEach c _ s) as [s1 r1]. cbn [fst] in *. subst s1.
      right. exact Hr.
  - unfold handleMouseUp, saveAnnotation, endDragOrResize.
    destruct (isDrawing s), (currentDrawing s), (currentFrameId s),
      (negb (hasToken c)); first [exact H | left; reflexivity].
  - unfold startDrag.
    destruct (negb (isFrameAnnotationMode s)); [exact H|].
    destruct container; try destruct (findPolyp polypId (polyps s));
      right; reflexivity.
  - unfold startResize.
    destruct (negb (isFrameAnnotationMode s)); [exact H|left; reflexivity].
  - exact H.
  - unfold handleEndPolyp, saveAnnotation.
    destruct (isFrameAnnotationMode s), (currentFrameId s),
      (findPolyp polypId (polyps s)), (negb (hasToken c)); exact H.
  - unfold handleAddNote, saveAnnotation.
    destruct note as [n|]; [|exact H].
    destruct (String.eqb n EmptyString); [exact H|].
    destruct (findPolyp polypId (polyps s)), (negb (hasToken c)); exact H.
  - unfold handleDeletePolyp.
    destruct (negb (hasToken c)), (currentFrameId s); exact H.
  - unfold handleKeyDown, handleDeletePolyp.
    destruct (String.eqb key "Delete"), (selectedPolyp s),
      (negb (hasToken c)), (currentFrameId s); exact H.
  - exact H.
  - exact H.
  - exact H.
  - exact H.
  - unfold seekFrame. destruct (isFrameAnnotationMode s); exact H.
  - unfold loadAnnotations.
    destruct (currentFrameId s), (negb (isFrameAnnotationMode s)),
      (negb (hasToken c)); exact H.
  - unfold saveAnnotation_settled. destruct r; exact H.
  - unfold handleDeletePolyp_settled.
    destruct r; [destruct (isSelected sel polypId)|]; exact H.
  - unfold fetchFrames_settled. destruct r; exact H.
  - unfold loadAnnotations_settled. destruct r; exact H.
Qed.

(** X5. The gesture interpreter is never dragging and resizing at once:
    from a state in which at most one of the two flags is set, any run of
    events and completions leads to such a state. *)
Theorem never_dragging_and_resizing
  (evs : list (option DOMRect * Event)) :
  forall s : State, notBoth s -> notBoth (fst (run c evs s)).
Proof.
  induction evs as [|[container ev] rest IH]; intros s H; [exact H|].
  cbn [run].
  pose proof (step_keeps_notBoth container ev s H) as H1.
  destruct (step c container ev s) as [s1 r1]. cbn [fst] in H1.
  specialize (IH s1 H1).
  destruct (run c rest s1) as [s2 r2]. exact IH.
Qed.

End Wiring.

(** An error left by a failed save stays through a draw gesture, and the
    page is not rendered. *)
Lemma error_example :
  let s :=
    saveAnnotation_settled (A := unit) (Js.Rejected "Failed to save annotation.")
      (Examples.viewing 4 [Examples.drawn]) in
  let s' :=
    fst (Session.run Examples.user
           [(Some Examples.surface, Session.MouseDown false (mkMouseEvent 5 5));
            (Some Examples.surface, Session.MouseMove (mkMouseEvent 9 9));
            (Some Examples.surface, Session.MouseUp 1700000000001)] s) in
  error s' <> EmptyString
  /\ Session.render false true s' = Session.ErrorView (error s').
Proof.
  exact (error_is_never_cleared Examples.user
           [(Some Examples.surface, Session.MouseDown false (mkMouseEvent 5 5));
            (Some Examples.surface, Session.MouseMove (mkMouseEvent 9 9));
            (Some Examples.surface, Session.MouseUp 1700000000001)] true
           (saveAnnotation_settled (A := unit)
              (Js.Rejected "Failed to save annotation.")
              (Examples.viewing 4 [Examples.drawn]))
           ltac:(discriminate)).
Defined.

(** Presses and moves in continuous mode. *)
Lemma continuous_mode_example :
  Session.run Examples.user
    [(None, Session.PolypMouseDown (mkMouseEvent 60 60) 1700000000000);
     (None, Session.MouseMove (mkMouseEvent 200 200));
     (None, Session.HandleMouseDown (mkMouseEvent 150 120) 1700000000000);
     (None, Session.MouseDown false (mkMouseEvent 5 5))]
    (exitFrameMode (Examples.viewing 4 [Examples.drawn])) =
    (exitFrameMode (Examples.viewing 4 [Examples.drawn]), []).
Proof.
  apply (pointer_input_inert_in_continuous_mode Examples.user); [reflexivity|].
  repeat (apply Forall_cons; [reflexivity|]). apply Forall_nil.
Defined.

(** A press on a body followed by a press on a resize handle. *)
Lemma never_both_example :
  Session.notBoth
    (fst (Session.run Examples.user
            [(Some Examples.surface,
              Session.PolypMouseDown (mkMouseEvent 60 60) 1700000000000);
             (Some Examples.surface,
              Session.HandleMouseDown (mkMouseEvent 150 120) 1700000000000)]
            (Examples.viewing 4 [Examples.drawn]))).
Proof.
  apply (never_dragging_and_resizing Examples.user). left. reflexivity.
Defined.

(** ** A failed save *)

Lemma run_keeps_error (c : Ctx) (evs : list (option DOMRect * Session.Event)) :
  forall s : State,
    error s <> EmptyString ->
    error (fst (Session.run c evs s)) <> EmptyString.
Proof.
  induction evs as [|[container ev] rest IH]; intros s He; [exact He|].
  cbn [Session.run].
  pose proof (step_keeps_error c container ev s He) as H1.
  destruct (Session.step c container ev s) as [s1 r1]. cbn [fst] in H1.
  specialize (IH s1 H1).
  destruct (Session.run c rest s1) as [s2 r2]. exact IH.
Qed.

(** C6, refuted as stated.  After a failed save the annotation is still in
    the state, but it is not editable: the component, which showed the
    frame with the annotation, returns the error text alone, without the
    overlay, the sidebar or any control. *)
Lemma failed_save_leaves_only_the_error_text :
  let s := Examples.viewing 4 [Examples.drawn] in
  let s1 := fst (saveAnnotation Examples.user Examples.drawn s) in
  let s2 :=
    saveAnnotation_settled
      (Service.createOrUpdateAnnotation (A := unit)
         (Service.AxiosError (Some (Js.Text "Quota exceeded"))))
      s1 in
  Session.render false true s1 =
    Session.FramePage [Examples.drawn] [Examples.drawn] None
  /\ polyps s2 = [Examples.drawn]
  /\ Session.render false true s2 =
       Session.ErrorView "Failed to save annotation: Quota exceeded"
  /\ Session.render false true
       (fst (Session.step Examples.user (Some Examples.surface)
               (Session.PolypMouseDown (mkMouseEvent 60 60) 1700000000000)
               s2)) =
       Session.ErrorView "Failed to save annotation: Quota exceeded".
Proof.
  split; [reflexivity|]. split; [reflexivity|]. split; reflexivity.
Qed.

(** C6, amended.  When the [createOrUpdateAnnotation] call issued for an
    annotation fails, the stored annotations, the selection, the frames
    and the mode are what they were when the call was issued, and the
    error is ["Failed to save annotation: "] followed by the detail of the
    response when it is a non-empty string, by the text of the detail when
    it is another truthy value, and by ["Failed to save annotation."]
    otherwise.  From then on, whatever the user does and whatever calls
    complete, the error stays set and the component shows the error text
    alone: the annotation is kept but can no longer be edited. *)
Theorem save_failure_keeps_annotation_and_records_error
  (c : Ctx) (polyp : Polyp) (detail : option Js.Value) (s : State)
  (evs : list (option DOMRect * Session.Event)) (hasMetadata : bool) :
  hasToken c = true ->
  let s1 := fst (saveAnnotation c polyp s) in
  let s2 :=
    saveAnnotation_settled
      (Service.createOrUpdateAnnotation (A := unit)
         (Service.AxiosError detail))
      s1 in
  let message :=
    match detail with
    | Some (Js.Text text) =>
        if String.eqb text EmptyString
        then "Failed to save annotation."%string else text
    | Some (Js.Other true text) => text
    | Some (Js.Other false _) | None => "Failed to save annotation."%string
    end in
  let s3 := fst (Session.run c evs s2) in
  snd (saveAnnotation c polyp s) = [CreateOrUpdate (annotationData c polyp)]
  /\ polyps s2 = polyps s
  /\ selectedPolyp s2 = selectedPolyp s
  /\ frames s2 = frames s
  /\ currentFrameIndex s2 = currentFrameIndex s
  /\ isFrameAnnotationMode s2 = isFrameAnnotationMode s
  /\ saving s2 = false
  /\ error s2 = ("Failed to save annotation: " ++ message)%string
  /\ error s3 <> EmptyString
  /\ Session.render false hasMetadata s3 = Session.ErrorView (error s3).
Proof.
  intros Htok. cbv zeta. unfold saveAnnotation. rewrite Htok.
  cbn [negb fst snd].
  assert (Herr :
    error
      (saveAnnotation_settled
         (Service.createOrUpdateAnnotation (A := unit)
            (Service.AxiosError detail))
         (setSaving true s)) <> EmptyString)
    by (cbn; discriminate).
  pose proof (run_keeps_error c evs _ Herr) as Hrun.
  split; [reflexivity|]. split; [reflexivity|]. split; [reflexivity|].
  split; [reflexivity|]. split; [reflexivity|]. split; [reflexivity|].
  split; [reflexivity|].
  split; [destruct detail as [[text|[|] text]|]; reflexivity|].
  split; [exact Hrun|].
  unfold Session.render.
  destruct (String.eqb_spec
              (error
                 (fst (Session.run c evs
                         (saveAnnotation_settled
                            (Service.createOrUpdateAnnotation (A := unit)
                               (Service.AxiosError detail))
                            (setSaving true s)))))
              EmptyString) as [E|E]; [contradiction|reflexivity].
Qed.

(** The running example: the server refuses the save of the drawn
    annotation with a list of validation errors, and the user then presses
    on the annotation and moves the pointer. *)
Lemma save_failure_example :
  let s := Examples.viewing 4 [Examples.drawn] in
  let s2 :=
    saveAnnotation_settled
      (Service.createOrUpdateAnnotation (A := unit)
         (Service.AxiosError (Some (Js.Other true "[object Object]"))))
      (fst (saveAnnotation Examples.user Examples.drawn s)) in
  let s3 :=
    fst (Session.run Examples.user
           [(Some Examples.surface,
             Session.PolypMouseDown (mkMouseEvent 60 60) 1700000000000);
            (Some Examples.surface, Session.MouseMove (mkMouseEvent 90 80))]
           s2) in
  polyps s2 = [Examples.drawn]
  /\ error s2 = "Failed to save annotation: [object Object]"%string
  /\ Session.render false true s3 = Session.ErrorView (error s3).
Proof.
  pose proof
    (save_failure_keeps_annotation_and_records_error Examples.user
       Examples.drawn (Some (Js.Other true "[object Object]"))
       (Examples.viewing 4 [Examples.drawn])
       [(Some Examples.surface,
         Session.PolypMouseDown (mkMouseEvent 60 60) 1700000000000);
        (Some Examples.surface, Session.MouseMove (mkMouseEvent 90 80))]
       true eq_refl) as H.
  cbv zeta in H.
  destruct H as (_ & Hp & _ & _ & _ & _ & _ & He & _ & Hv).
  exact (conj Hp (conj He Hv)).
Defined.

(** ** What edits do to the list of annotations *)

Lemma map_id_mapWhere (k : Z) (f : Polyp -> Polyp) (ps : list Polyp) :
  (forall p, id (f p) = id p) ->
  map id (mapWhere k f ps) = map id ps.
Proof.
  intros Hf. unfold mapWhere. rewrite map_map. apply map_ext.
  intros p. destruct (id p =? k); [apply Hf|reflexivity].
Qed.

Lemma others_mapWhere (k : Z) (f : Polyp -> Polyp) (ps : list Polyp) :
  (forall p, id (f p) = id p) ->
  filter (fun p => negb (id p =? k)) (mapWhere k f ps) =
    filter (fun p => negb (id p =? k)) ps.
Proof.
  intros Hf. unfold mapWhere.
  induction ps as [|p ps IH]; [reflexivity|].
  cbn [map filter]. destruct (id p =? k) eqn:E.
  - rewrite Hf, E. exact IH.
  - rewrite E. cbn [negb]. now rewrite IH.
Qed.

Lemma targets_mapWhere (k : Z) (f : Polyp -> Polyp) (ps : list Polyp) :
  (forall p, id (f p) = id p) ->
  filter (fun p => id p =? k) (mapWhere k f ps) =
    map f (filter (fun p => id p =? k) ps).
Proof.
  intros Hf. unfold mapWhere.
  induction ps as [|p ps IH]; [reflexivity|].
  cbn [map filter]. destruct (id p =? k) eqn:E.
  - rewrite Hf, E. cbn [map]. now rewrite IH.
  - rewrite E. exact IH.
Qed.

Lemma handleMouseMove_polyps (c : Ctx) (e : MouseEvent)
  (container : option DOMRect) (s : State) :
  polyps (fst (handleMouseMove c e container s)) = polyps s
  \/ exists k f,
       selectedPolyp s = Some k
       /\ (forall p, id (f p) = id p)
       /\ polyps (fst (handleMouseMove c e container s)) =
            mapWhere k f (polyps s).
Proof.
  unfold handleMouseMove, onResize, onDrag.
  destruct (negb (isFrameAnnotationMode s)); [now left|].
  destruct (isDrawing s); [destruct container; now left|].
  destruct (isResizing s).
  - destruct (selectedPolyp s) as [sel|], container as [ct|];
      try (now left).
    destruct (findPolyp sel (polyps s)); [|now left].
    right. eexists sel, _. split; [reflexivity|].
    split; [|reflexivity]. reflexivity.
  - destruct (isDragging s); [|now left].
    destruct (selectedPolyp s) as [sel|], container as [ct|];
      try (now left).
    right. exists sel, (dragged e ct (dragStart s)).
    split; [reflexivity|]. split; [reflexivity|].
    destruct (saveEach c _ s) as [s1 r1]. reflexivity.
Qed.

Lemma handleEndPolyp_polyps_any (c : Ctx) (k : Z) (s : State) :
  polyps (fst (handleEndPolyp c k s)) = polyps s
  \/ polyps (fst (handleEndPolyp c k s)) =
       mapWhere k (withEndFrame (Some (currentFrameIndex s + 1))) (polyps s).
Proof.
  unfold handleEndPolyp, saveAnnotation.
  destruct (isFrameAnnotationMode s), (currentFrameId s);
    try (now left).
  right. destruct (findPolyp k (polyps s)), (negb (hasToken c)); reflexivity.
Qed.

Lemma handleAddNote_polyps_any (c : Ctx) (note : option string) (k : Z)
  (s : State) :
  polyps (fst (handleAddNote c note k s)) = polyps s
  \/ exists n,
       polyps (fst (handleAddNote c note k s)) =
         mapWhere k (withNotes n) (polyps s).
Proof.
  unfold handleAddNote, saveAnnotation.
  destruct note as [n|]; [|now left].
  destruct (String.eqb n EmptyString); [now left|].
  right. exists n.
  destruct (findPolyp k (polyps s)), (negb (hasToken c)); reflexivity.
Qed.

(** X6. Pointer moves (drag, resize, drawing preview), the end action and
    the note action never add, remove or reorder annotations: the list of
    ids in the store is the same afterwards, and every annotation with
    another id than the one acted on (the selected one for a pointer move)
    is exactly as it was. *)
Theorem edits_keep_ids_and_other_annotations
  (c : Ctx) (e : MouseEvent) (container : option DOMRect)
  (note : option string) (k : Z) (s : State) :
  let ids (t : State) := map id (polyps t) in
  let others (j : Z) (t : State) :=
    filter (fun p => negb (id p =? j)) (polyps t) in
  ids (fst (handleMouseMove c e container s)) = ids s
  /\ ids (fst (handleEndPolyp c k s)) = ids s
  /\ ids (fst (handleAddNote c note k s)) = ids s
  /\ others k (fst (handleEndPolyp c k s)) = others k s
  /\ others k (fst (handleAddNote c note k s)) = others k s
  /\ match selectedPolyp s with
     | Some j => others j (fst (handleMouseMove c e container s)) = others j s
     | None => polyps (fst (handleMouseMove c e container s)) = polyps s
     end.
Proof.
  cbv zeta.
  destruct (handleMouseMove_polyps c e container s)
    as [Hm | (j & f & Hsel & Hf & Hm)];
  destruct (handleEndPolyp_polyps_any c k s) as [He | He];
  destruct (handleAddNote_polyps_any c note k s) as [Hn | [n Hn]];
  rewrite ?Hm, ?He, ?Hn, ?Hsel;
  repeat apply conj;
  try reflexivity;
  try (apply map_id_mapWhere; first [exact Hf | reflexivity]);
  try (apply others_mapWhere; first [exact Hf | reflexivity]);
  destruct (selectedPolyp s); reflexivity.
Qed.

(** X7. Distinct ids stay distinct: when no two stored annotations share an
    id, that still holds after any pointer move, end action, note action
    and settled delete, and after a release that creates an annotation
    provided the time stamp taken as its id is not the id of a stored
    annotation. *)
Theorem distinct_ids_are_kept
  (c : Ctx) (e : MouseEvent) (container : option DOMRect)
  (note : option string) (k now : Z) (sel : option Z)
  (r : Js.Settled unit) (s : State) :
  NoDup (map id (polyps s)) ->
  NoDup (map id (polyps (fst (handleMouseMove c e container s))))
  /\ NoDup (map id (polyps (fst (handleEndPolyp c k s))))
  /\ NoDup (map id (polyps (fst (handleAddNote c note k s))))
  /\ NoDup (map id (polyps (handleDeletePolyp_settled sel k r s)))
  /\ (~ In now (map id (polyps s)) ->
      NoDup (map id (polyps (fst (handleMouseUp c now s))))).
Proof.
  intros Hnd. repeat apply conj.
  - destruct (handleMouseMove_polyps c e container s)
      as [-> | (j & f & _ & Hf & ->)]; [exact Hnd|].
    now rewrite map_id_mapWhere.
  - destruct (handleEndPolyp_polyps_any c k s) as [-> | ->]; [exact Hnd|].
    now rewrite map_id_mapWhere.
  - destruct (handleAddNote_polyps_any c note k s) as [-> | [n ->]];
      [exact Hnd|].
    now rewrite map_id_mapWhere.
  - destruct r as [a|m]; [|exact Hnd].
    rewrite delete_settled_polyps.
    clear - Hnd. induction (polyps s) as [|p ps IH]; [constructor|].
    cbn [map] in Hnd. inversion Hnd as [|? ? Hnotin Hrest]; subst.
    cbn [filter]. destruct (negb (id p =? k)); [|now apply IH].
    cbn [map]. constructor; [|now apply IH].
    intros Hin. apply Hnotin.
    apply in_map_iff in Hin. destruct Hin as [q [Hq Hin]].
    apply filter_In in Hin. apply in_map_iff. exists q. tauto.
  - intros Hfresh. unfold handleMouseUp, saveAnnotation, endDragOrResize.
    destruct (isDrawing s), (currentDrawing s) as [d|],
      (currentFrameId s) as [fr|]; try exact Hnd.
    assert (H : NoDup (map id (polyps s ++ [newPolyp now fr
                                               (currentFrameIndex s) d]))).
    { rewrite map_app. cbn [map newPolyp id].
      apply NoDup_app; [exact Hnd|constructor; [intros []|constructor]|].
      intros a Ha [<-|[]]. contradiction. }
    destruct (negb (hasToken c)); exact H.
Qed.

(** Moving, ending and annotating the single annotation of the running
    example, and drawing a second one a millisecond later. *)
Lemma distinct_ids_example :
  let s := Examples.viewing 4 [Examples.drawn] in
  NoDup (map id (polyps (fst (handleEndPolyp Examples.user 1700000000000 s))))
  /\ NoDup
       (map id
          (polyps
             (fst (handleMouseUp Examples.user 1700000000001
                     (handleMouseDown false (mkMouseEvent 5 5)
                        (Some Examples.surface) s))))).
Proof.
  assert (Hnd : NoDup (map id [Examples.drawn]))
    by (constructor; [intros []|constructor]).
  split.
  - exact (proj1 (proj2
             (distinct_ids_are_kept Examples.user (mkMouseEvent 0 0) None None
                1700000000000 0 None (Js.Resolved tt)
                (Examples.viewing 4 [Examples.drawn]) Hnd))).
  - refine (proj2 (proj2 (proj2 (proj2
             (distinct_ids_are_kept Examples.user (mkMouseEvent 0 0) None None
                0 1700000000001 None (Js.Resolved tt)
                (handleMouseDown false (mkMouseEvent 5 5)
                   (Some Examples.surface)
                   (Examples.viewing 4 [Examples.drawn])) Hnd)))) _).
    cbn. intros [H|[]]. discriminate H.
Defined.

(** ** Drag and resize gestures *)

Section Gestures.

Variables (c : Ctx) (ct : DOMRect).

Lemma saveEach_with_token (ps : list Polyp) :
  hasToken c = true ->
  forall s : State,
    snd (saveEach c ps s) =
      map (fun p => CreateOrUpdate (annotationData c p)) ps.
Proof.
  intros Htok. induction ps as [|p ps IH]; intros s; [reflexivity|].
  cbn [saveEach]. unfold saveAnnotation. rewrite Htok. cbn [negb].
  specialize (IH (setSaving true s)).
  destruct (saveEach c ps (setSaving true s)) as [s2 r2]. cbn [snd] in *.
  now rewrite IH.
Qed.


End Gestures.


Section MoveRuns.

Import Session.

Variables (c : Ctx) (ct : DOMRect).

Lemma last_cons_shift {A : Type} (a : A) (l : list A) (d : A) :
  last (a :: l) d = last l a.
Proof.
  destruct l as [|b l]; [reflexivity|].
  change (last (b :: l) d = last (b :: l) a). apply last_cons_default.
Qed.

Lemma one_drag_move (e : MouseEvent) (sel : Z) (s : State) :
  dragging sel s ->
  let r := handleMouseMove c e (Some ct) s in
  dragging sel (fst r)
  /\ dragStart (fst r) = dragStart s
  /\ polyps (fst r) = mapWhere sel (dragged e ct (dragStart s)) (polyps s)
  /\ (hasToken c = true ->
      snd r =
        map (fun p =>
               CreateOrUpdate (annotationData c (dragged e ct (dragStart s) p)))
          (filter (fun p => id p =? sel) (polyps s))).
Proof.
  intros (Hm & Hd & Hr & Hg & Hs). cbv zeta.
  unfold handleMouseMove. rewrite Hm, Hd, Hr, Hg. cbn [negb].
  unfold onDrag. rewrite Hg, Hs.
  pose proof (saveEach_shape c
                (map (dragged e ct (dragStart s))
                   (filter (fun polyp => id polyp =? sel) (polyps s))) s)
    as (m & v & Heq & _).
  pose proof (fun H => saveEach_with_token c
                (map (dragged e ct (dragStart s))
                   (filter (fun polyp => id polyp =? sel) (polyps s))) H s)
    as Hreq.
  destruct (saveEach c _ s) as [s1 r1]. cbn [fst snd] in *. subst s1.
  repeat split; try assumption.
  intros Htok. rewrite (Hreq Htok), map_map. reflexivity.
Qed.

Lemma drag_moves_run (sel : Z) (rest : list MouseEvent) :
  forall (e0 : MouseEvent) (s : State),
    dragging sel s ->
    let r := moves c (Some ct) (e0 :: rest) s in
    polyps (fst r) =
      mapWhere sel (dragged (last rest e0) ct (dragStart s)) (polyps s)
    /\ (hasToken c = true ->
        snd r =
          flat_map
            (fun e =>
               map (fun p =>
                      CreateOrUpdate
                        (annotationData c (dragged e ct (dragStart s) p)))
                 (filter (fun p => id p =? sel) (polyps s)))
            (e0 :: rest)).
Proof.
  induction rest as [|e1 rest IH]; intros e0 s Hs; cbv zeta.
  - destruct (one_drag_move e0 sel s Hs) as (_ & _ & Hp & Hq).
    cbn [moves last flat_map].
    destruct (handleMouseMove c e0 (Some ct) s) as [s1 r1].
    cbn [fst snd] in *. rewrite !app_nil_r. split; assumption.
  - destruct (one_drag_move e0 sel s Hs) as (Hs1 & Hds & Hp & Hq).
    change (moves c (Some ct) (e0 :: e1 :: rest) s)
      with (let '(s1, r1) := handleMouseMove c e0 (Some ct) s in
            let '(s2, r2) := moves c (Some ct) (e1 :: rest) s1 in
            (s2, r1 ++ r2)).
    destruct (handleMouseMove c e0 (Some ct) s) as [s1 r1].
    cbn [fst snd] in *.
    specialize (IH e1 s1 Hs1). cbv zeta in IH.
    destruct (moves c (Some ct) (e1 :: rest) s1) as [s2 r2].
    cbn [fst snd] in *. destruct IH as [IHp IHq].
    rewrite Hds, Hp in IHp. rewrite Hds, Hp in IHq.
    split.
    + rewrite IHp, (last_cons_shift e1 rest e0).
      unfold mapWhere. rewrite map_map. apply map_ext. intros p.
      destruct (id p =? sel) eqn:E; [|now rewrite E].
      cbn [id dragged]. now rewrite E.
    + intros Htok. rewrite (Hq Htok), (IHq Htok).
      rewrite (flat_map_ext _
                 (fun e =>
                    map (fun p =>
                           CreateOrUpdate
                             (annotationData c (dragged e ct (dragStart s) p)))
                      (filter (fun p => id p =? sel) (polyps s)))).
      * reflexivity.
      * intros e. rewrite targets_mapWhere by reflexivity.
        rewrite map_map. reflexivity.
Qed.

(** X9. During a drag the last move wins and every move is sent.  After a
    press on an annotation's body and a run of moves, the store is what the
    last move alone would have produced, and with a credential present each
    move has issued one save per annotation with the grabbed id, in order,
    carrying the position of that move: intermediate positions are not
    held back. *)
Theorem drag_run_last_move_wins_every_move_saved
  (press e0 : MouseEvent) (rest : list MouseEvent) (k : Z) (s : State) :
  isFrameAnnotationMode s = true ->
  isDrawing s = false ->
  let s1 := startDrag press k (Some ct) s in
  let r := moves c (Some ct) (e0 :: rest) s1 in
  polyps (fst r) =
    polyps (fst (handleMouseMove c (last rest e0) (Some ct) s1))
  /\ (hasToken c = true ->
      snd r =
        flat_map
          (fun e =>
             map (fun p =>
                    CreateOrUpdate
                      (annotationData c (dragged e ct (dragStart s1) p)))
               (filter (fun p => id p =? k) (polyps s)))
          (e0 :: rest)
      /\ List.length (snd r) =
           Nat.mul (List.length (e0 :: rest))
             (List.length (filter (fun p => id p =? k) (polyps s)))).
Proof.
  intros Hm Hd. cbv zeta.
  set (s1 := startDrag press k (Some ct) s).
  assert (Hs1 : dragging k s1).
  { subst s1. unfold dragging, startDrag. rewrite Hm. cbn [negb].
    destruct (findPolyp k (polyps s)); repeat split; assumption. }
  assert (Hps : polyps s1 = polyps s).
  { subst s1. unfold startDrag. rewrite Hm. cbn [negb].
    destruct (findPolyp k (polyps s)); reflexivity. }
  destruct (drag_moves_run k rest e0 s1 Hs1) as [Hp Hq].
  destruct (one_drag_move (last rest e0) k s1 Hs1) as (_ & _ & Hp1 & _).
  split; [now rewrite Hp, Hp1|].
  intros Htok. rewrite (Hq Htok), Hps. split; [reflexivity|].
  generalize (e0 :: rest). intros es.
  induction es as [|e es IH]; [reflexivity|].
  cbn [flat_map List.length]. rewrite length_app, IH, length_map.
  reflexivity.
Qed.

Lemma resize_moves_silent (container : option DOMRect)
  (es : list MouseEvent) :
  forall s : State,
    isFrameAnnotationMode s = true ->
    isDrawing s = false ->
    isResizing s = true ->
    snd (moves c container es s) = [].
Proof.
  induction es as [|e es IH]; intros s Hm Hd Hr; [reflexivity|].
  cbn [moves]. unfold handleMouseMove. rewrite Hm, Hd, Hr. cbn [negb].
  assert (H : isFrameAnnotationMode (onResize e container s) = true
              /\ isDrawing (onResize e container s) = false
              /\ isResizing (onResize e container s) = true).
  { unfold onResize. rewrite Hr.
    destruct (selectedPolyp s) as [sel|], container as [b|];
      try (repeat split; assumption).
    destruct (findPolyp sel (polyps s)); repeat split; assumption. }
  destruct H as (Hm' & Hd' & Hr').
  specialize (IH (onResize e container s) Hm' Hd' Hr').
  destruct (moves c container es (onResize e container s)) as [s2 r2].
  cbn [snd] in *. now rewrite IH.
Qed.

Lemma mapWhere_fixed (k : Z) (f : Polyp -> Polyp) (ps : list Polyp) :
  (forall p, In p ps -> id p = k -> f p = p) ->
  mapWhere k f ps = ps.
Proof.
  unfold mapWhere. induction ps as [|p ps IH]; intros H; [reflexivity|].
  cbn [map]. rewrite IH by (intros q Hq; apply H; now right).
  destruct (Z.eqb_spec (id p) k) as [E|_]; [|reflexivity].
  now rewrite (H p (or_introl eq_refl) E).
Qed.

(** X10. A resize gesture sends nothing.  After a press on a resize handle
    in frame annotation mode, no run of moves issues a request, although
    the moves change the stored size: resized geometry reaches the backend
    only with a later save of that annotation. *)
Theorem resize_gesture_sends_nothing
  (container : option DOMRect) (press : MouseEvent) (es : list MouseEvent)
  (k : Z) (s : State) :
  isFrameAnnotationMode s = true ->
  isDrawing s = false ->
  snd (moves c container es (startResize press k s)) = [].
Proof.
  intros Hm Hd. apply resize_moves_silent; unfold startResize;
    rewrite Hm; cbn [negb]; first [exact Hm | exact Hd | reflexivity].
Qed.

(** X11. A resize move without displacement changes nothing when every
    annotation with the grabbed id is at least 30 by 30 and ends inside the
    container. *)
Theorem resize_without_displacement_is_identity
  (press : MouseEvent) (k : Z) (s : State) :
  isFrameAnnotationMode s = true ->
  isDrawing s = false ->
  (forall p, In p (polyps s) -> id p = k ->
     30 <= width (size p) <= cwidth ct - x (position p)
     /\ 30 <= height (size p) <= cheight ct - y (position p)) ->
  polyps (fst (handleMouseMove c press (Some ct) (startResize press k s))) =
    polyps s.
Proof.
  intros Hm Hd Hfit. unfold startResize, handleMouseMove.
  rewrite Hm. cbn [negb].
  cbn [isFrameAnnotationMode isDrawing isResizing setDragStart
       setSelectedPolyp setIsDragging setIsResizing].
  rewrite Hm, Hd. cbn [negb fst].
  rewrite (onResize_polyps press ct _ k) by reflexivity.
  cbn [polyps dragStart setDragStart setSelectedPolyp setIsDragging
       setIsResizing x y].
  apply mapWhere_fixed. intros p Hin Hid.
  destruct (Hfit p Hin Hid) as [Hw Hh].
  destruct p as [i fr n sf ef [px py] [w h]]. unfold resized.
  cbn [id frame notes startFrame endFrame position size x y width height]
    in *.
  f_equal. f_equal; lia.
Qed.

End MoveRuns.

(** Three drag moves of the running example: the store is as after the
    last one and three saves were sent. *)
Lemma drag_run_example :
  let s1 :=
    startDrag (mkMouseEvent 60 60) 1700000000000 (Some Examples.surface)
      (Examples.viewing 4 [Examples.drawn]) in
  let r :=
    moves Examples.user (Some Examples.surface)
      [mkMouseEvent 70 70; mkMouseEvent 900 900; mkMouseEvent 200 200] s1 in
  polyps (fst r) =
    polyps (fst (handleMouseMove Examples.user (mkMouseEvent 200 200)
                   (Some Examples.surface) s1))
  /\ List.length (snd r) = 3%nat.
Proof.
  pose proof
    (drag_run_last_move_wins_every_move_saved Examples.user Examples.surface
       (mkMouseEvent 60 60) (mkMouseEvent 70 70)
       [mkMouseEvent 900 900; mkMouseEvent 200 200] 1700000000000
       (Examples.viewing 4 [Examples.drawn]) eq_refl eq_refl) as [Hp Hq].
  exact (conj Hp (proj2 (Hq eq_refl))).
Defined.

(** Resizing the running example by two moves sends nothing. *)
Lemma resize_silent_example :
  snd (moves Examples.user (Some Examples.surface)
         [mkMouseEvent 160 130; mkMouseEvent 170 140]
         (startResize (mkMouseEvent 150 120) 1700000000000
            (Examples.viewing 4 [Examples.drawn]))) = [].
Proof.
  exact (resize_gesture_sends_nothing Examples.user (Some Examples.surface)
           (mkMouseEvent 150 120)
           [mkMouseEvent 160 130; mkMouseEvent 170 140] 1700000000000
           (Examples.viewing 4 [Examples.drawn]) eq_refl eq_refl).
Defined.

(** A press on the resize handle of the running example and a move at the
    same point. *)
Lemma resize_identity_example :
  polyps
    (fst (handleMouseMove Examples.user (mkMouseEvent 150 120)
            (Some Examples.surface)
            (startResize (mkMouseEvent 150 120) 1700000000000
               (Examples.viewing 4 [Examples.drawn])))) =
    polyps (Examples.viewing 4 [Examples.drawn]).
Proof.
  apply (resize_without_displacement_is_identity Examples.user
           Examples.surface (mkMouseEvent 150 120) 1700000000000
           (Examples.viewing 4 [Examples.drawn]) eq_refl eq_refl).
  intros p [<-|[]] _. cbn. lia.
Defined.

(** ** What is sent and what comes back *)

Section Wire.

Import Session.

(** The frame numbers below 1000 through [/ 30] on a save and [* 30] and
    [Math.floor] on a load, and the truthiness of the quotient. *)
Lemma frames_below_1000 :
  Js.below 1000 (fun k =>
    let t :=
      (PrimFloat.of_uint63 (Uint63.of_Z k)
       / PrimFloat.of_uint63 (Uint63.of_Z 30))%float in
    (Js.floor (t * 30) =?
       (if existsb (Z.eqb k)
             [123; 245; 246; 247; 490; 492; 494; 505; 507; 509; 965; 969;
              973; 980; 984; 988; 995; 999]
        then k - 1 else k))
    && Bool.eqb (Js.truthyFloat (Some t)) (negb (k =? 0))) = true.
Proof. vm_compute. reflexivity. Qed.

Lemma frame_there_and_back (k : Z) :
  0 <= k < 1000 ->
  Js.floor (Js.ofQ (inject_Z k / 30) * 30) =
    (if existsb (Z.eqb k)
          [123; 245; 246; 247; 490; 492; 494; 505; 507; 509; 965; 969;
           973; 980; 984; 988; 995; 999]
     then k - 1 else k)
  /\ Js.truthyFloat (Some (Js.ofQ (inject_Z k / 30))) = negb (k =? 0).
Proof.
  intros Hk.
  assert (E : Js.ofQ (inject_Z k / 30) =
              (PrimFloat.of_uint63 (Uint63.of_Z k)
               / PrimFloat.of_uint63 (Uint63.of_Z 30))%float).
  { unfold Js.ofQ. cbn [Qnum Qden Qdiv Qmult Qinv inject_Z Pos.mul].
    rewrite Z.mul_1_r, !ofZ_small by lia. reflexivity. }
  rewrite E.
  pose proof (below_spec 1000 _ frames_below_1000 k Hk) as H.
  cbv beta zeta in H. apply andb_true_iff in H. destruct H as [H1 H2].
  split; [now apply Z.eqb_eq|now apply Bool.eqb_prop].
Qed.

(** X12. Saving an annotation and reading the record back for the same
    frame gives its id, frame, notes, position and size.  The frame
    numbers travel as seconds, divided by 30 and multiplied by 30 again as
    doubles: below 1000 a frame number comes back as it was except at 18
    values, the first of which is 123, where it comes back lower by one.
    An [endFrame] of 0 comes back as none. *)
Theorem save_then_load_gives_the_annotation_back (c : Ctx) (p : Polyp) :
  let q := mappedPolyp (frame p) (asFetched (annotationData c p)) in
  let back (k : Z) :=
    if existsb (Z.eqb k)
         [123; 245; 246; 247; 490; 492; 494; 505; 507; 509; 965; 969;
          973; 980; 984; 988; 995; 999]
    then k - 1 else k in
  id q = id p /\ frame q = frame p /\ notes q = notes p
  /\ position q = position p /\ size q = size p
  /\ (0 <= startFrame p < 1000 -> startFrame q = back (startFrame p))
  /\ (endFrame p = None \/ endFrame p = Some 0 -> endFrame q = None)
  /\ (forall e, endFrame p = Some e -> 0 < e < 1000 ->
                endFrame q = Some (back e)).
Proof.
  destruct p as [i fr n sf ef pos sz]. cbv zeta.
  unfold mappedPolyp, asFetched, annotationData.
  cbn [id frame notes startFrame endFrame position size
       Service.polyp_id Service.x1 Service.y1 Service.width Service.height
       Service.start_time Service.end_time Service.content
       f_polyp_id f_x1 f_y1 f_width f_height f_start_time f_end_time
       f_content].
  split; [reflexivity|]. split; [reflexivity|].
  split; [cbn; destruct (String.eqb_spec n EmptyString); congruence|].
  split; [destruct pos; reflexivity|].
  split; [destruct sz; reflexivity|].
  split; [intros H; exact (proj1 (frame_there_and_back sf H))|].
  split.
  - intros [->| ->]; reflexivity.
  - intros e -> He. cbn [Js.truthyNum option_map].
    destruct (Z.eqb_spec e 0) as [->|Hne]; [lia|]. cbn [negb option_map].
    destruct (frame_there_and_back e ltac:(lia)) as [H1 H2].
    rewrite H2. destruct (Z.eqb_spec e 0); [contradiction|].
    cbn [negb option_map]. now rewrite H1.
Qed.

(** The ended annotation of the examples survives the round trip; one
    started at frame 123 comes back as started at frame 122. *)
Lemma round_trip_example :
  (let q :=
     mappedPolyp 109
       (asFetched (annotationData Examples.user Examples.closed)) in
   startFrame q = 5 /\ endFrame q = Some 10)
  /\ startFrame
       (mappedPolyp 223
          (asFetched
             (annotationData Examples.user
                (mkPolyp 12 223 EmptyString 123 None (mkPoint 50 50)
                   (mkSize 100 70))))) = 122.
Proof.
  pose proof
    (save_then_load_gives_the_annotation_back Examples.user Examples.closed)
    as H.
  pose proof
    (save_then_load_gives_the_annotation_back Examples.user
       (mkPolyp 12 223 EmptyString 123 None (mkPoint 50 50) (mkSize 100 70)))
    as H'.
  cbv zeta in H, H'.
  destruct H as (_ & _ & _ & _ & _ & Hs & _ & He).
  destruct H' as (_ & _ & _ & _ & _ & Hs' & _).
  exact (conj (conj (Hs ltac:(cbn; lia)) (He 10 eq_refl ltac:(lia)))
           (Hs' ltac:(cbn; lia))).
Defined.


(** X14. What a call of the service hands on.  A successful call gives
    the response data unchanged.  A failed call is rejected with the detail
    of the response when that is a non-empty string, with the text of the
    detail when it is another truthy value (["[object Object]"] for a list
    of validation errors), and with the call's own fallback text otherwise.
    The message is empty only for a truthy detail whose text is empty, an
    empty list. *)
Theorem service_failures_carry_a_message
  (A : Type) (o : Service.AxiosOutcome A) :
  let described (fallback : string) (r : Js.Settled A) :=
    match o, r with
    | Service.AxiosOk d, Js.Resolved d' => d' = d
    | Service.AxiosError detail, Js.Rejected m =>
        m = match detail with
            | Some (Js.Text text) =>
                if String.eqb text EmptyString then fallback else text
            | Some (Js.Other true text) => text
            | Some (Js.Other false _) | None => fallback
            end
        /\ (m = EmptyString <-> detail = Some (Js.Other true EmptyString))
    | _, _ => False
    end in
  described "Failed to save annotation."%string
    (Service.createOrUpdateAnnotation o)
  /\ described "Failed to fetch annotations."%string
       (Service.fetchAnnotationsForFrame o)
  /\ described "Failed to delete annotation."%string
       (Service.deleteAnnotation o).
Proof.
  cbv zeta.
  unfold Service.createOrUpdateAnnotation, Service.fetchAnnotationsForFrame,
    Service.deleteAnnotation, Service.wrap.
  destruct o as [d|[[text|[|] text]|]]; cbn [Js.orStr].
  - repeat split.
  - destruct (String.eqb_spec text EmptyString) as [->|Hne];
      repeat split; intros H; try discriminate H; contradiction.
  - repeat split; intros H;
      first [now subst text|injection H as ->; reflexivity].
  - repeat split; intros H; discriminate H.
  - repeat split; intros H; discriminate H.
Qed.

(** X15. What the frame overlay shows after a load.  When the response
    arrives for the frame that is still current, every loaded annotation is
    shown; when the user has moved to another frame in the meantime (the
    load is not cancelled), the store holds the annotations of the old
    frame and the overlay shows none of them. *)
Theorem overlay_after_load
  (fr cur : Z) (annotations : list FetchedAnnotation) (s : State) :
  currentFrameId s = Some cur ->
  let s' := loadAnnotations_settled fr (Js.Resolved annotations) s in
  polyps s' = map (mappedPolyp fr) annotations
  /\ (fr = cur -> frameOverlay s' = polyps s')
  /\ (fr <> cur -> frameOverlay s' = []).
Proof.
  intros Hcur. cbv zeta. split; [reflexivity|].
  unfold frameOverlay.
  change (currentFrameId (loadAnnotations_settled fr (Js.Resolved annotations)
                            s))
    with (currentFrameId s).
  rewrite Hcur. cbn [loadAnnotations_settled polyps setPolyps].
  split; intros H.
  - subst fr. induction annotations as [|a l IH]; [reflexivity|].
    cbn [map filter]. change (frame (mappedPolyp cur a)) with cur.
    rewrite Z.eqb_refl. now rewrite IH.
  - induction annotations as [|a l IH]; [reflexivity|].
    cbn [map filter]. change (frame (mappedPolyp fr a)) with fr.
    destruct (Z.eqb_spec fr cur); [contradiction|]. exact IH.
Qed.

(** A response for frame 104 arriving while frame index 5 is shown. *)
Lemma overlay_after_load_example :
  let s' :=
    loadAnnotations_settled 104 (Js.Resolved [Examples.barelyEnded])
      (Examples.viewing 5 []) in
  polyps s' = map (mappedPolyp 104) [Examples.barelyEnded]
  /\ (104 = 105 -> frameOverlay s' = polyps s')
  /\ (104 <> 105 -> frameOverlay s' = []).
Proof.
  exact (overlay_after_load 104 105 [Examples.barelyEnded]
           (Examples.viewing 5 []) eq_refl).
Defined.

(** X16. The Delete key.  With a credential, a current frame and a
    selected annotation, the key sends one delete call for it and leaves the
    state as it is; once that call has succeeded the selection is cleared
    and a further press sends nothing.  Any other key does nothing. *)
Theorem delete_key_acts_on_the_selection_once
  (c : Ctx) (k fr : Z) (s : State) :
  hasToken c = true ->
  currentFrameId s = Some fr ->
  selectedPolyp s = Some k ->
  handleKeyDown c "Delete" s = (s, [Delete fr k])
  /\ (let s' :=
        handleDeletePolyp_settled (selectedPolyp s) k (Js.Resolved tt) s in
      handleKeyDown c "Delete" s' = (s', []))
  /\ (forall key, key <> "Delete"%string -> handleKeyDown c key s = (s, [])).
Proof.
  intros Htok Hfr Hsel. repeat apply conj.
  - unfold handleKeyDown, handleDeletePolyp. cbn [String.eqb Ascii.eqb].
    cbn. now rewrite Hsel, Htok, Hfr.
  - cbv zeta. unfold handleKeyDown, handleDeletePolyp_settled.
    rewrite Hsel. cbn [isSelected]. rewrite Z.eqb_refl. reflexivity.
  - intros key Hkey. unfold handleKeyDown.
    destruct (String.eqb_spec key "Delete"); [contradiction|reflexivity].
Qed.

(** The Delete key on the selected, ended annotation of the examples. *)
Lemma delete_key_example :
  let s := setSelectedPolyp (Some 7) (Examples.viewing 9 [Examples.closed]) in
  handleKeyDown Examples.user "Delete" s = (s, [Delete 109 7])
  /\ (let s' :=
        handleDeletePolyp_settled (selectedPolyp s) 7 (Js.Resolved tt) s in
      handleKeyDown Examples.user "Delete" s' = (s', [])).
Proof.
  pose proof
    (delete_key_acts_on_the_selection_once Examples.user 7 109
       (setSelectedPolyp (Some 7) (Examples.viewing 9 [Examples.closed]))
       eq_refl eq_refl eq_refl) as (H1 & H2 & _).
  exact (conj H1 H2).
Defined.

End Wire.

(** ** More on durations *)

Section Durations.

Import Duration.

Lemma split_nonempty (sep : ascii) (s : string) : split sep s <> [].
Proof.
  destruct s as [|a s]; cbn [split]; [discriminate|].
  destruct (Ascii.eqb a sep); [discriminate|].
  destruct (split sep s); discriminate.
Qed.

Lemma split_single (sep : ascii) (s part : string) :
  split sep s = [part] -> part = s.
Proof.
  revert part. induction s as [|a s IH]; intros part H.
  - cbn in H. congruence.
  - cbn [split] in H. destruct (Ascii.eqb a sep).
    + destruct (split sep s) eqn:E; [now apply split_nonempty in E|].
      discriminate.
    + destruct (split sep s) as [|p ps] eqn:E;
        [now apply split_nonempty in E|].
      destruct ps; [|discriminate].
      injection H as <-. f_equal. now apply IH.
Qed.

Lemma split_before_sep (sep : ascii) (h tail : string) :
  split sep h = [h] ->
  split sep (h ++ String sep tail) = h :: split sep tail.
Proof.
  induction h as [|a h IH]; intros H.
  - cbn [String.append split]. now rewrite Ascii.eqb_refl.
  - cbn [String.append split] in *.
    destruct (Ascii.eqb a sep); [|].
    + destruct (split sep h) eqn:E; [now apply split_nonempty in E|].
      discriminate.
    + destruct (split sep h) as [|p ps] eqn:E;
        [now apply split_nonempty in E|].
      destruct ps; [|discriminate].
      injection H as ->. now rewrite IH.
Qed.

Lemma split_numeral_then (ds : list Z) (j : string) :
  isDigits ds -> split ":" j = [j] ->
  split ":" (numeral ds ++ j) = [(numeral ds ++ j)%string].
Proof.
  intros [_ Hall] Hsj. induction Hall as [|d ds Hd Hall IH].
  - exact Hsj.
  - cbn [numeral String.append split].
    destruct (digitChar_props d Hd) as (_ & _ & -> & _).
    now rewrite IH.
Qed.

(** X17. When the parser gives [NaN].  The parts of the two-part and
    three-part forms are not checked: as soon as [parseInt] of one part is
    [NaN] (the part does not start, after white space and a sign, with a
    decimal digit), the result is [NaN].  A string with any other number
    of parts never gives [NaN]. *)
Theorem parseDuration_NaN_part (str : string) :
  let parts := split ":" str in
  ((List.length parts = 2%nat \/ List.length parts = 3%nat) ->
   (exists part, In part parts /\ PrimFloat.is_nan (parseInt part) = true) ->
   PrimFloat.is_nan (parseDuration (OfString str)) = true)
  /\ (List.length parts <> 2%nat -> List.length parts <> 3%nat ->
      PrimFloat.is_nan (parseDuration (OfString str)) = false).
Proof.
  cbv zeta. unfold parseDuration.
  destruct (split ":" str) as [|a [|b [|d [|e l]]]]; cbn [map List.length].
  - split; [intros [H|H]; discriminate|intros _ _; apply is_nan_orZero].
  - split; [intros [H|H]; discriminate|intros _ _; apply is_nan_orZero].
  - split; [|intros H; now contradiction H].
    intros _ [part [[<-|[<-|[]]] H]].
    + now apply is_nan_add_l, is_nan_mul_l.
    + now apply is_nan_add_r.
  - split; [|intros _ H; now contradiction H].
    intros _ [part [[<-|[<-|[<-|[]]]] H]].
    + now apply is_nan_add_l, is_nan_add_l, is_nan_mul_l.
    + now apply is_nan_add_l, is_nan_add_r, is_nan_mul_l.
    + now apply is_nan_add_r.
  - split; [intros [H|H]; discriminate|intros _ _; apply is_nan_orZero].
Qed.

(** X18. Each part is read up to its first character that is not a digit.
    In the three-part and two-part forms, text that follows the digits of a
    part (a fraction of seconds, a unit) is dropped without changing the
    result, as long as it contains no colon; with fields below 100 (minutes
    below 1000 in the two-part form) the result is the double that is the
    integer [H*3600 + M*60 + S], or [M*60 + S]. *)
Theorem parseDuration_ignores_text_after_digits
  (hs ms ss : list Z) (jh jm js : string) :
  isDigits hs -> isDigits ms -> isDigits ss ->
  isTail jh -> isTail jm -> isTail js ->
  parseDuration
    (OfString ((numeral hs ++ jh) ++ ":" ++ (numeral ms ++ jm) ++ ":"
               ++ (numeral ss ++ js))) =
    parseDuration
      (OfString (numeral hs ++ ":" ++ numeral ms ++ ":" ++ numeral ss))
  /\ parseDuration
       (OfString ((numeral ms ++ jm) ++ ":" ++ (numeral ss ++ js))) =
       parseDuration (OfString (numeral ms ++ ":" ++ numeral ss))
  /\ (valueOf hs < 100 -> valueOf ms < 100 -> valueOf ss < 100 ->
      parseDuration
        (OfString ((numeral hs ++ jh) ++ ":" ++ (numeral ms ++ jm) ++ ":"
                   ++ (numeral ss ++ js))) =
        PrimFloat.of_uint63
          (Uint63.of_Z (valueOf hs * 3600 + valueOf ms * 60 + valueOf ss)))
  /\ (valueOf ms < 1000 -> valueOf ss < 100 ->
      parseDuration
        (OfString ((numeral ms ++ jm) ++ ":" ++ (numeral ss ++ js))) =
        PrimFloat.of_uint63 (Uint63.of_Z (valueOf ms * 60 + valueOf ss))).
Proof.
  intros Hh Hm Hs [Hjh Hdh] [Hjm Hdm] [Hjs Hds].
  assert (E3 :
    parseDuration
      (OfString ((numeral hs ++ jh) ++ ":" ++ (numeral ms ++ jm) ++ ":"
                 ++ (numeral ss ++ js))) =
      (Js.ofZ (valueOf hs) * 3600 + Js.ofZ (valueOf ms) * 60
       + Js.ofZ (valueOf ss))%float).
  { unfold parseDuration.
    change ((numeral hs ++ jh) ++ ":" ++ (numeral ms ++ jm) ++ ":"
            ++ (numeral ss ++ js))%string
      with ((numeral hs ++ jh)
            ++ String ":"
                 ((numeral ms ++ jm) ++ String ":" (numeral ss ++ js)))
             %string.
    rewrite !split_before_sep by (apply split_numeral_then; assumption).
    rewrite (split_numeral_then ss js Hs Hjs). cbn [map].
    now rewrite !parseInt_numeral_then by assumption. }
  assert (E2 :
    parseDuration
      (OfString ((numeral ms ++ jm) ++ ":" ++ (numeral ss ++ js))) =
      (Js.ofZ (valueOf ms) * 60 + Js.ofZ (valueOf ss))%float).
  { unfold parseDuration.
    change ((numeral ms ++ jm) ++ ":" ++ (numeral ss ++ js))%string
      with ((numeral ms ++ jm) ++ String ":" (numeral ss ++ js))%string.
    rewrite !split_before_sep by (apply split_numeral_then; assumption).
    rewrite (split_numeral_then ss js Hs Hjs). cbn [map].
    now rewrite !parseInt_numeral_then by assumption. }
  assert (P3 :
    parseDuration
      (OfString (numeral hs ++ ":" ++ numeral ms ++ ":" ++ numeral ss)) =
      (Js.ofZ (valueOf hs) * 3600 + Js.ofZ (valueOf ms) * 60
       + Js.ofZ (valueOf ss))%float).
  { unfold parseDuration.
    change (numeral hs ++ ":" ++ numeral ms ++ ":" ++ numeral ss)%string
      with (numeral hs ++ String ":" (numeral ms ++ String ":" (numeral ss)))
             %string.
    rewrite !split_numeral_colon, split_numeral_last
      by (apply Hh || apply Hm || apply Hs).
    cbn [map]. now rewrite !parseInt_numeral by assumption. }
  assert (P2 :
    parseDuration (OfString (numeral ms ++ ":" ++ numeral ss)) =
      (Js.ofZ (valueOf ms) * 60 + Js.ofZ (valueOf ss))%float).
  { unfold parseDuration.
    change (numeral ms ++ ":" ++ numeral ss)%string
      with (numeral ms ++ String ":" (numeral ss))%string.
    rewrite split_numeral_colon, split_numeral_last
      by (apply Hm || apply Hs).
    cbn [map]. now rewrite !parseInt_numeral by assumption. }
  pose proof (valueOf_nonneg hs (proj2 Hh)).
  pose proof (valueOf_nonneg ms (proj2 Hm)).
  pose proof (valueOf_nonneg ss (proj2 Hs)).
  split; [now rewrite E3, P3|]. split; [now rewrite E2, P2|]. split.
  - intros Bh Bm Bs. rewrite E3. apply hms_exact; lia.
  - intros Bm Bs. rewrite E2. apply ms_exact; lia.
Qed.

(** ["01:30:05.75"] is 5405 seconds and ["2m:5s"] is 125. *)
Lemma parseDuration_fraction_example :
  parseDuration (OfString "01:30:05.75") = 5405%float
  /\ parseDuration (OfString "2m:5s") = 125%float.
Proof.
  assert (D : forall ds, ds <> [] -> Forall (fun d => 0 <= d <= 9) ds ->
                isDigits ds) by (intros ds H1 H2; split; assumption).
  assert (D2 : forall a b, 0 <= a <= 9 -> 0 <= b <= 9 -> isDigits [a; b]).
  { intros a b Ha Hb. apply D; [discriminate|].
    apply Forall_cons; [exact Ha|].
    apply Forall_cons; [exact Hb|apply Forall_nil]. }
  assert (D1 : forall a, 0 <= a <= 9 -> isDigits [a]).
  { intros a Ha. apply D; [discriminate|].
    apply Forall_cons; [exact Ha|apply Forall_nil]. }
  split.
  - exact (proj1 (proj2 (proj2
             (parseDuration_ignores_text_after_digits [0; 1] [3; 0] [0; 5]
                EmptyString EmptyString ".75"
                (D2 0 1 ltac:(lia) ltac:(lia)) (D2 3 0 ltac:(lia) ltac:(lia))
                (D2 0 5 ltac:(lia) ltac:(lia))
                (conj eq_refl I) (conj eq_refl I) (conj eq_refl eq_refl))))
             eq_refl eq_refl eq_refl).
  - exact (proj2 (proj2 (proj2
             (parseDuration_ignores_text_after_digits [0] [2] [5]
                EmptyString "m" "s"
                (D1 0 ltac:(lia)) (D1 2 ltac:(lia)) (D1 5 ltac:(lia))
                (conj eq_refl I) (conj eq_refl eq_refl)
                (conj eq_refl eq_refl))))
             eq_refl eq_refl).
Defined.

End Durations.

(** ** Frame images *)

Section Sources.

Import Session.

Lemma pop_split_basename (sep : ascii) (p : string) :
  exists dir,
    p = (dir ++ pop (Duration.split sep p))%string
    /\ Duration.split sep (pop (Duration.split sep p)) =
         [pop (Duration.split sep p)]
    /\ (dir = EmptyString
        \/ exists d, dir = (d ++ String sep EmptyString)%string).
Proof.
  unfold pop. induction p as [|a p IH].
  - exists EmptyString. repeat split. now left.
  - destruct IH as (dir & Hp & Hname & Hdir).
    cbn [Duration.split]. destruct (Ascii.eqb_spec a sep) as [->|Hne].
    + rewrite last_cons_shift.
      exists (String sep dir). split; [cbn; now rewrite <- Hp|].
      split; [exact Hname|]. right.
      destruct Hdir as [->|[d ->]];
        [exists EmptyString|exists (String sep d)]; reflexivity.
    + destruct (Duration.split sep p) as [|q qs] eqn:E;
        [now apply split_nonempty in E|].
      destruct qs as [|q1 qs1].
      * apply split_single in E as Hq. subst q.
        exists EmptyString. cbn [last String.append].
        split; [reflexivity|]. split; [|now left].
        cbn [Duration.split].
        destruct (Ascii.eqb_spec a sep); [contradiction|]. now rewrite E.
      * assert (Hlast : last (String a q :: q1 :: qs1) EmptyString =
                        last (q :: q1 :: qs1) EmptyString) by reflexivity.
        rewrite Hlast.
        exists (String a dir).
        split; [cbn [String.append]; f_equal; exact Hp|].
        split; [exact Hname|].
        destruct Hdir as [->|[d ->]].
        -- exfalso. cbn [String.append] in Hp.
           rewrite <- Hp in Hname. rewrite E in Hname. discriminate.
        -- right. exists (String a d). reflexivity.
Qed.

(** X19. The address of the frame image uses the file name of the frame's
    path only.  For a frame index inside the list, [getFrameSrc] is the
    backend address, the video's route and then the part of the frame's
    path after its last slash (the whole path when it has none); that part
    never contains a slash. *)
Theorem frame_source_uses_the_file_name
  (localhost id : string) (s : State) (f : FrameInfo) :
  0 <= currentFrameIndex s ->
  nth_error (frames s) (Z.to_nat (currentFrameIndex s)) = Some f ->
  exists dir name,
    path f = (dir ++ name)%string
    /\ Duration.split "/" name = [name]
    /\ (dir = EmptyString \/ exists d, dir = (d ++ "/")%string)
    /\ getFrameSrc localhost id s =
         (localhost ++ "/videos/" ++ id ++ "/get_frame/" ++ name)%string.
Proof.
  intros Hidx Hnth.
  destruct (pop_split_basename "/" (path f)) as (dir & Hp & Hname & Hdir).
  exists dir, (pop (Duration.split "/" (path f))).
  repeat split; try assumption.
  unfold getFrameSrc. rewrite Hnth.
  destruct (frames s); [destruct (Z.to_nat _); discriminate|].
  destruct (Z.ltb_spec (currentFrameIndex s) 0); [lia|reflexivity].
Qed.

End Sources.

(** A frame stored as [frames/video_1/frame_0004.jpg]. *)
Lemma frame_source_example :
  exists dir name,
    "frames/video_1/frame_0004.jpg"%string = (dir ++ name)%string
    /\ Duration.split "/" name = [name]
    /\ (dir = EmptyString \/ exists d, dir = (d ++ "/")%string)
    /\ Session.getFrameSrc "http://localhost:8000" "1"
         (setFrames [mkFrameInfo 104 "frames/video_1/frame_0004.jpg"]
            (Examples.viewing 0 [])) =
         ("http://localhost:8000" ++ "/videos/" ++ "1" ++ "/get_frame/"
          ++ name)%string.
Proof.
  exact (frame_source_uses_the_file_name "http://localhost:8000" "1"
           (setFrames [mkFrameInfo 104 "frames/video_1/frame_0004.jpg"]
              (Examples.viewing 0 []))
           (mkFrameInfo 104 "frames/video_1/frame_0004.jpg")
           ltac:(cbn; lia) eq_refl).
Defined.

(** ** The statements above on the examples *)

(** Ending the running example keeps the list of ids. *)
Lemma edits_keep_ids_example :
  map id
    (polyps (fst (handleEndPolyp Examples.user 1700000000000
                    (Examples.viewing 9 [Examples.drawn; Examples.closed]))))
  = map id (polyps (Examples.viewing 9 [Examples.drawn; Examples.closed])).
Proof.
  exact (proj1 (proj2
           (edits_keep_ids_and_other_annotations Examples.user
              (mkMouseEvent 0 0) None None 1700000000000
              (Examples.viewing 9 [Examples.drawn; Examples.closed])))).
Defined.


(** A failure whose detail is the empty text is reported with the fallback
    text. *)
Lemma service_failure_example :
  match
    Service.createOrUpdateAnnotation (A := unit)
      (Service.AxiosError (Some (Js.Text EmptyString)))
  with
  | Js.Rejected m =>
      m = "Failed to save annotation."%string
      /\ (m = EmptyString <->
          Some (Js.Text EmptyString) = Some (Js.Other true EmptyString))
  | Js.Resolved _ => False
  end.
Proof.
  exact (proj1
           (service_failures_carry_a_message unit
              (Service.AxiosError (Some (Js.Text EmptyString))))).
Defined.

(** A three-part string with an empty part is read as [NaN]. *)
Lemma parseDuration_NaN_example :
  PrimFloat.is_nan (Duration.parseDuration (Duration.OfString "1::30")) = true.
Proof.
  exact (proj1 (parseDuration_NaN_part "1::30") (or_intror eq_refl)
           (ex_intro _ EmptyString (conj (or_intror (or_introl eq_refl))
                                      eq_refl))).
Defined.
